(** * generate_chart.py: yearly line changes from a git log

    A shallow embedding of [get_git_stats] and [create_chart] of
    [generate_chart.py], and the properties of the two functions.

    Text is modelled by [string]: a character is a code point below 256.
    The Python string methods used by the script ([strip], [split],
    [lower], [endswith], [in], [int], [re.match]) are defined on that
    range as CPython defines them.  Python integers are unbounded and are
    modelled by [Z]; the interpreter's optional limit on the number of
    digits [int] accepts is not modelled.  The calls on the plotting
    library and on the console are recorded in order; a call may raise,
    and nothing in the script catches the exception. *)

From Stdlib Require Import ZArith Ascii DecimalString DecimalPos.
From stdpp Require Import gmap strings list sorting.

Local Open Scope Z_scope.

(** ** Python strings *)

Module Py.

Definition code (c : ascii) : N := N_of_ascii c.

Definition TAB : ascii := "009"%char.
Definition NL : ascii := "010"%char.

(** [str.isspace] on one character. *)
Definition isspace (c : ascii) : bool :=
  let n := code c in
  ((9 <=? n) && (n <=? 13) || (28 <=? n) && (n <=? 32)
   || (n =? 133) || (n =? 160))%N.

(** The characters [int] skips around a literal: [isspace] without the
    four separators U+001C to U+001F. *)
Definition int_space (c : ascii) : bool :=
  let n := code c in
  ((9 <=? n) && (n <=? 13) || (n =? 32) || (n =? 133) || (n =? 160))%N.

(** A decimal digit, [\d] of [re] and the digits of [int]. *)
Definition isdecimal (c : ascii) : bool :=
  let n := code c in ((48 <=? n) && (n <=? 57))%N.

Definition digit_value (c : ascii) : Z := Z.of_N (code c) - 48.

(** [str.lower] on one character. *)
Definition lower_char (c : ascii) : ascii :=
  let n := code c in
  if ((65 <=? n) && (n <=? 90)
      || (192 <=? n) && (n <=? 222) && negb (n =? 215))%N
  then ascii_of_N (n + 32) else c.

Fixpoint lower (s : string) : string :=
  match s with
  | EmptyString => EmptyString
  | String c r => String (lower_char c) (lower r)
  end.

Section strip.
Variable sp : ascii → bool.

Fixpoint lstrip_by (s : string) : string :=
  match s with
  | EmptyString => EmptyString
  | String c r => if sp c then lstrip_by r else s
  end.

Fixpoint rstrip_by (s : string) : string :=
  match s with
  | EmptyString => EmptyString
  | String c r =>
      match rstrip_by r with
      | EmptyString => if sp c then EmptyString else String c EmptyString
      | r' => String c r'
      end
  end.

Definition strip_by (s : string) : string := rstrip_by (lstrip_by s).
End strip.

(** [s.strip()] *)
Definition strip : string → string := strip_by isspace.
Definition rstrip : string → string := rstrip_by isspace.

(** [s.split(sep)] for a separator of one character. *)
Fixpoint split (sep : ascii) (s : string) : list string :=
  match s with
  | EmptyString => [EmptyString]
  | String c r =>
      if Ascii.eqb c sep then EmptyString :: split sep r
      else match split sep r with
           | h :: t => String c h :: t
           | [] => [String c EmptyString]
           end
  end.

(** [c in s] for one character. *)
Fixpoint has_char (c : ascii) (s : string) : bool :=
  match s with
  | EmptyString => false
  | String a r => Ascii.eqb a c || has_char c r
  end.

(** [s.startswith(p)] *)
Fixpoint startswith (p s : string) : bool :=
  match p, s with
  | EmptyString, _ => true
  | String a p', String b s' => Ascii.eqb a b && startswith p' s'
  | String _ _, EmptyString => false
  end.

(** [sub in s] *)
Fixpoint contains (sub s : string) : bool :=
  startswith sub s ||
  match s with
  | EmptyString => false
  | String _ r => contains sub r
  end.

(** [s.endswith(suf)] *)
Fixpoint endswith (suf s : string) : bool :=
  String.eqb s suf ||
  match s with
  | EmptyString => false
  | String _ r => endswith suf r
  end.

(** The digits of an [int] literal: decimal digits, with single
    underscores between digits.  [prev] tells that the character before
    was a digit. *)
Fixpoint int_digits (acc : Z) (prev : bool) (s : string) : option Z :=
  match s with
  | EmptyString => if prev then Some acc else None
  | String c r =>
      if isdecimal c then int_digits (10 * acc + digit_value c) true r
      else if Ascii.eqb c "_" then
        if prev then int_digits acc false r else None
      else None
  end.

(** [int(s)] in base 10; [None] stands for [ValueError]. *)
Definition int (s : string) : option Z :=
  match strip_by int_space s with
  | String "+" r => int_digits 0 false r
  | String "-" r => Z.opp <$> int_digits 0 false r
  | r => int_digits 0 false r
  end.

(** [str(n)] for an integer. *)
Definition str (n : Z) : string := NilZero.string_of_int (Z.to_int n).

(** [re.match(r'^\d{4}$', s)]: four digits, then the end of the string
    or one final newline. *)
Definition re_match_year (s : string) : bool :=
  match s with
  | String a (String b (String c (String d r))) =>
      isdecimal a && isdecimal b && isdecimal c && isdecimal d &&
      match r with
      | EmptyString => true
      | String e EmptyString => Ascii.eqb e NL
      | _ => false
      end
  | _ => false
  end.

(** Truth value of a string. *)
Definition truthy (s : string) : bool :=
  match s with EmptyString => false | _ => true end.

End Py.

(** ** The log extractor *)

(** The value of one year: [{"additions": a, "deletions": d}]. *)
Record totals := Totals { additions : Z; deletions : Z }.

Global Instance totals_eq_dec : EqDecision totals.
Proof. solve_decision. Defined.

(** The default value of the [defaultdict]. *)
Definition zero_totals : totals := Totals 0 0.

(** [stats[y]] of a [defaultdict]: the value of a missing key is the
    default. *)
Definition totals_of (stats : gmap string totals) (y : string) : totals :=
  default zero_totals (stats !! y).

(** [stats[y]["additions"] += a; stats[y]["deletions"] += d] *)
Definition bump (y : string) (a d : Z) (stats : gmap string totals)
  : gmap string totals :=
  let r := totals_of stats y in
  <[y := Totals (additions r + a) (deletions r + d)]> stats.

(** [int(f) if f != '-' else 0] *)
Definition field_value (f : string) : option Z :=
  if String.eqb f "-" then Some 0 else Py.int f.

(** The file filter on the last field. *)
Definition file_filter (p : string) : bool :=
  Py.contains "sports_act" (Py.lower p) || Py.endswith ".md" p.

(** The state of the loop: [stats] and [current_year]. *)
Definition scan_state : Type := gmap string totals * option string.

(** The body of the [try]: [None] stands for a raised [ValueError]. *)
Definition try_numstat (stats : gmap string totals) (y : string)
    (parts : list string) : option (gmap string totals) :=
  match parts with
  | p0 :: p1 :: _ =>
      a ← field_value p0;
      d ← field_value p1;
      Some (if file_filter (List.last parts EmptyString)
            then bump y a d stats else stats)
  | _ => Some stats
  end.

(** One turn of the [for] loop. *)
Definition process_line (st : scan_state) (raw : string) : scan_state :=
  let '(stats, current_year) := st in
  let line := Py.strip raw in
  if negb (Py.truthy line) then st
  else if Py.re_match_year line then (stats, Some line)
  else
    match current_year with
    | Some y =>
        if Py.truthy y && Py.has_char Py.TAB line then
          let parts := Py.split Py.TAB line in
          if (2 <=? length parts)%nat then
            match try_numstat stats y parts with
            | Some stats' => (stats', current_year)
            | None => st
            end
          else st
        else st
    | None => st
    end.

(** The [for] loop over the lines. *)
Definition scan_lines (lines : list string) (st : scan_state) : scan_state :=
  fold_left process_line lines st.

(** The loop on the captured output, from the initial state. *)
Definition parse_log (out : string) : gmap string totals :=
  (scan_lines (Py.split Py.NL out) (∅, None)).1.

(** What [subprocess.run] hands back. *)
Record CompletedProcess :=
  { returncode : Z; stdout : string; stderr : string }.

Inductive outcome (A : Type) : Type :=
  | Returned (a : A)
  | Raised (e : string).
Arguments Returned {A} a.
Arguments Raised {A} e.

Section extractor.
(** [subprocess.run(cmd, capture_output=True, text=True)]: it raises
    when the program cannot be started. *)
Variable run : list string → outcome CompletedProcess.

Definition git_log_cmd (repo_path : string) : list string :=
  ["git"; "-C"; repo_path; "log"; "--format=%ad"; "--date=format:%Y";
   "--numstat"; "--all"].

Definition get_git_stats (repo_path : string)
  : outcome (gmap string totals) :=
  match run (git_log_cmd repo_path) with
  | Raised e => Raised e
  | Returned result => Returned (parse_log (stdout result))
  end.
End extractor.

(** ** The chart renderer *)

(** A call of [create_chart] or of the entry point on the plotting
    library or on the console.  Widths, line widths, font sizes and
    opacities are floating-point constants and are left out of the record
    of a call. *)
Inductive plot_call : Type :=
  | Subplots (w h : Z)
  | Bar (x : nat) (height : Z) (color edgecolor : string)
  | Text (x : nat) (y : Z) (s : string) (va : string)
  | SetXticks (xs : list nat)
  | SetXticklabels (labels : list string)
  | Axhline (y : Z) (color : string)
  | SetYlabel (s : string)
  | SetXlabel (s : string)
  | YGrid (linestyle color : string)
  | SetAxisbelow
  | SpineVisible (side : string) (b : bool)
  | SpineColor (side color : string)
  | AxFacecolor (color : string)
  | FigFacecolor (color : string)
  | TightLayout
  | Savefig (path : string) (dpi : Z) (facecolor : string)
  | Close
  | PrintLine (s : string).

Global Instance plot_call_eq_dec : EqDecision plot_call.
Proof. solve_decision. Defined.

(** [stats.keys()]; the order of the keys does not matter to [sorted],
    as the keys of a dictionary are distinct. *)
Definition keys (stats : gmap string totals) : list string :=
  (map_to_list stats).*1.

(** [sorted] on strings: ascending in the order of the code points. *)
Definition sorted (l : list string) : list string :=
  merge_sort String.le l.

(** [stats[y]] of a plain dictionary.  A missing key would raise
    [KeyError]; [create_chart] only looks up keys of [stats]. *)
Definition getitem (stats : gmap string totals) (y : string) : totals :=
  default zero_totals (stats !! y).

Definition addition_color : string := "#90EE90".
Definition addition_edge : string := "#66B266".
Definition deletion_color : string := "#FF7F7F".
Definition deletion_edge : string := "#CD5C5C".

(** The body of the drawing loop for position [i]. *)
Definition draw_year (i : nat) (bar : string * (Z * Z)) : list plot_call :=
  let '(year, (add, dele)) := bar in
  (if 0 <? add
   then [Bar i add addition_color addition_edge;
         Text i (add + 5) (Py.str add) "bottom"]
   else []) ++
  (if dele <? 0
   then [Bar i dele deletion_color deletion_edge;
         Text i (dele - 5) (Py.str (Z.abs dele)) "top"]
   else []).

(** The calls of [create_chart], in order, when none raises.  No call
    depends on what an earlier call returned. *)
Definition chart_calls (stats : gmap string totals) (output_path : string)
  : list plot_call :=
  let years := sorted (keys stats) in
  let adds := (λ y, additions (getitem stats y)) <$> years in
  let dels := (λ y, - deletions (getitem stats y)) <$> years in
  [Subplots 14 6] ++
  mjoin (imap draw_year (zip years (zip adds dels))) ++
  [SetXticks (seq 0 (length years));
   SetXticklabels years;
   Axhline 0 "#888";
   SetYlabel EmptyString;
   SetXlabel EmptyString;
   YGrid "--" "#888";
   SetAxisbelow;
   SpineVisible "top" false;
   SpineVisible "right" false;
   SpineColor "left" "#888";
   SpineColor "bottom" "#888";
   AxFacecolor "#FAFAFA";
   FigFacecolor "white";
   TightLayout;
   Savefig output_path 150 "white";
   Close;
   PrintLine ("Chart saved to " +:+ output_path)].

(** The plotting library and the console as the script meets them: the
    exception, if any, that a call raises, given the calls completed
    before it. *)
Definition library : Type := list plot_call → plot_call → option string.

(** The calls are made in order, after the calls [done]; nothing catches
    an exception, so the first call that raises ends the run.  The result
    is the list of the calls completed and the exception, if any. *)
Fixpoint exec (lib : library) (done todo : list plot_call)
  : list plot_call * option string :=
  match todo with
  | [] => (done, None)
  | c :: rest =>
      match lib done c with
      | Some e => (done, Some e)
      | None => exec lib (done ++ [c]) rest
      end
  end.

(** [create_chart(stats, output_path)] after the calls [done]. *)
Definition create_chart_from (lib : library) (done : list plot_call)
    (stats : gmap string totals) (output_path : string)
  : list plot_call * option string :=
  exec lib done (chart_calls stats output_path).

(** [create_chart(stats, output_path)] as the first thing done. *)
Definition create_chart (lib : library) (stats : gmap string totals)
    (output_path : string) : list plot_call * option string :=
  create_chart_from lib [] stats output_path.

(** A library that raises nothing. *)
Definition quiet_library : library := λ _ _, None.

(** A library whose [bar] raises [OverflowError] on a height that no
    float holds, as the conversion of such an integer to a float does. *)
Definition overflow_library : library :=
  λ _ c,
    match c with
    | Bar _ h _ _ =>
        if 2 ^ 1024 <=? Z.abs h then Some "OverflowError" else None
    | _ => None
    end.

(** ** The entry point *)

(** [os.path.join(a, b)] on a POSIX system. *)
Definition path_join (a b : string) : string :=
  if Py.startswith "/" b then b
  else if negb (Py.truthy a) || Py.endswith "/" a then a +:+ b
  else a +:+ "/" +:+ b.

(** The line printed for a year: two spaces, the year, the additions
    after [+] and the deletions after [-]. *)
Definition summary_line (year : string) (r : totals) : string :=
  "  " +:+ year +:+ ": +" +:+ Py.str (additions r) +:+ " -"
  +:+ Py.str (deletions r).

Section entry_point.
(** The library, [subprocess.run], and the directory of the script,
    [os.path.dirname(os.path.abspath(__file__))]. *)
Variable lib : library.
Variable run : list string → outcome CompletedProcess.
Variable script_dir : string.

(** The prints between extraction and rendering: the number of years,
    then a line for each year in sorted order. *)
Definition summary_calls (stats : gmap string totals) : list plot_call :=
  PrintLine ("Found data for " +:+ Py.str (Z.of_nat (size stats))
             +:+ " years:") ::
  ((λ year, PrintLine (summary_line year (getitem stats year)))
     <$> sorted (keys stats)).

(** The body of [if __name__ == "__main__"]: the calls completed, in
    order, and the exception that ended the run, if any. *)
Definition main : list plot_call * option string :=
  match exec lib [] [PrintLine "Extracting git statistics..."] with
  | (done, Some e) => (done, Some e)
  | (done, None) =>
      match get_git_stats run script_dir with
      | Raised e => (done, Some e)
      | Returned stats =>
          match exec lib done (summary_calls stats) with
          | (done', Some e) => (done', Some e)
          | (done', None) =>
              create_chart_from lib done' stats
                (path_join script_dir "changes.png")
          end
      end
  end.
End entry_point.

(** ** Vocabulary of the properties *)

(** A change line as [git log --numstat] prints it:
    additions, tab, deletions, tab, path. *)
Definition numstat_line (a d path : string) : string :=
  a +:+ String Py.TAB (d +:+ String Py.TAB path).

(** The log made of the given lines. *)
Fixpoint unlines (lines : list string) : string :=
  match lines with
  | [] => EmptyString
  | [l] => l
  | l :: ls => l +:+ String Py.NL (unlines ls)
  end.

(** The entry of [Y] in [stats'] is the accumulator of [Y] in [stats]
    plus [a] additions and [d] deletions; the other years are as in
    [stats]. *)
Definition gains (Y : string) (a d : Z) (stats stats' : gmap string totals)
  : Prop :=
  stats' !! Y = Some (Totals (additions (totals_of stats Y) + a)
                             (deletions (totals_of stats Y) + d)) ∧
  ∀ y, y ≠ Y → stats' !! y = stats !! y.

(** A line that sets the cursor. *)
Definition is_cursor (raw : string) : bool := Py.re_match_year (Py.strip raw).

(** A line with a tab whose last field passes the file filter. *)
Definition passes_filter (raw : string) : bool :=
  let line := Py.strip raw in
  Py.has_char Py.TAB line &&
  file_filter (List.last (Py.split Py.TAB line) EmptyString).

(** A cursor line of the year [Y]. *)
Definition cursor_of (Y raw : string) : bool :=
  is_cursor raw && String.eqb (Py.strip raw) Y.

(** No cursor line in between. *)
Definition same_segment (seg : list string) : Prop :=
  Forall (λ l, is_cursor l = false) seg.

(** The lines read so far end in a segment under the cursor [Y]. *)
Definition under_cursor (lines : list string) (Y : string) : Prop :=
  ∃ pre c seg, lines = pre ++ c :: seg ∧ cursor_of Y c = true ∧ same_segment seg.

(** Some line that passes the filter was read under the cursor [Y]. *)
Definition matched_under (lines : list string) (Y : string) : Prop :=
  ∃ pre c seg l post,
    lines = pre ++ c :: seg ++ l :: post ∧ cursor_of Y c = true ∧
    same_segment seg ∧ passes_filter l = true.

(** A field that is the marker, or no integer, or an integer that is not
    negative. *)
Definition nonneg_field (f : string) : bool :=
  match field_value f with
  | Some v => 0 <=? v
  | None => true
  end.

(** The first two fields of the stripped line are [nonneg_field]s. *)
Definition nonneg_line (raw : string) : bool :=
  forallb nonneg_field (take 2 (Py.split Py.TAB (Py.strip raw))).

Definition nonneg_log (out : string) : bool :=
  forallb nonneg_line (Py.split Py.NL out).

Definition nonneg_stats (stats : gmap string totals) : Prop :=
  ∀ y r, stats !! y = Some r → 0 ≤ additions r ∧ 0 ≤ deletions r.

(** Every character of [s] satisfies [P]. *)
Fixpoint all_chars (P : ascii → bool) (s : string) : bool :=
  match s with
  | EmptyString => true
  | String c r => P c && all_chars P r
  end.

(** The value of a numeral read from the left, from [acc]. *)
Fixpoint uint_value (acc : Z) (u : Decimal.uint) : Z :=
  match u with
  | Decimal.Nil => acc
  | Decimal.D0 u => uint_value (10 * acc) u
  | Decimal.D1 u => uint_value (10 * acc + 1) u
  | Decimal.D2 u => uint_value (10 * acc + 2) u
  | Decimal.D3 u => uint_value (10 * acc + 3) u
  | Decimal.D4 u => uint_value (10 * acc + 4) u
  | Decimal.D5 u => uint_value (10 * acc + 5) u
  | Decimal.D6 u => uint_value (10 * acc + 6) u
  | Decimal.D7 u => uint_value (10 * acc + 7) u
  | Decimal.D8 u => uint_value (10 * acc + 8) u
  | Decimal.D9 u => uint_value (10 * acc + 9) u
  end.

(** A year label: exactly four decimal digits. *)
Definition four_digits (s : string) : bool :=
  match s with
  | String a (String b (String c (String d EmptyString))) =>
      Py.isdecimal a && Py.isdecimal b && Py.isdecimal c && Py.isdecimal d
  | _ => false
  end.

(** What a line adds, under the cursor [cur]: the year and the two
    counts, or nothing. *)
Definition contribution (cur : option string) (raw : string)
  : option (string * Z * Z) :=
  match cur, Py.split Py.TAB (Py.strip raw) with
  | Some Y, p0 :: p1 :: rest =>
      if Py.truthy Y && file_filter (List.last (p0 :: p1 :: rest) EmptyString)
      then a ← field_value p0; d ← field_value p1; Some (Y, a, d)
      else None
  | _, _ => None
  end.

(** Two records added field by field. *)
Definition add_totals (r1 r2 : totals) : totals :=
  Totals (additions r1 + additions r2) (deletions r1 + deletions r2).

(** Two mappings added year by year. *)
Definition merge_stats (m1 m2 : gmap string totals) : gmap string totals :=
  union_with (λ r1 r2, Some (add_totals r1 r2)) m1 m2.

(** The first line of the log is a cursor line. *)
Definition starts_with_cursor (out : string) : bool :=
  match Py.split Py.NL out with
  | c :: _ => is_cursor c
  | [] => false
  end.

(** A commit as the log shows it: its year and, for each changed file,
    the additions, the deletions and the path. *)
Definition commit : Type := string * list (Z * Z * string).

Definition file_line (f : Z * Z * string) : string :=
  numstat_line (Py.str f.1.1) (Py.str f.1.2) f.2.

(** The lines of a commit: the year, an empty line, the change lines. *)
Definition commit_lines (c : commit) : list string :=
  c.1 :: EmptyString :: (file_line <$> c.2).

(** The log of a list of commits. *)
Definition render_log (commits : list commit) : string :=
  unlines (commits ≫= commit_lines).

(** Counts that are not negative; a path without tab and newline. *)
Definition wf_file (f : Z * Z * string) : bool :=
  (0 <=? f.1.1) && (0 <=? f.1.2) &&
  negb (Py.has_char Py.TAB f.2) && negb (Py.has_char Py.NL f.2).

Definition wf_commit (c : commit) : bool :=
  four_digits c.1 && forallb wf_file c.2.

(** The file counts: its path, without trailing white space, passes the
    file filter. *)
Definition counted (f : Z * Z * string) : bool :=
  file_filter (Py.rstrip f.2).

Definition counts_of (files : list (Z * Z * string)) : list (Z * Z) :=
  fst <$> List.filter counted files.

(** The counts of the files that count, over the commits of year [Y]. *)
Definition matching (Y : string) (commits : list commit) : list (Z * Z) :=
  commits ≫= λ c, if String.eqb c.1 Y then counts_of c.2 else [].

Definition Z_sum (l : list Z) : Z := foldr Z.add 0 l.

(** The entry of a year with the given counts: none without counts,
    else their sums. *)
Definition expected_entry (l : list (Z * Z)) : option totals :=
  match l with
  | [] => None
  | _ => Some (Totals (Z_sum l.*1) (Z_sum l.*2))
  end.

(** The first print of the entry point. *)
Definition first_print : plot_call :=
  PrintLine "Extracting git statistics...".

(** The calls that draw a bar, and those that write a label. *)
Definition is_bar (c : plot_call) : bool :=
  match c with Bar _ _ _ _ => true | _ => false end.

Definition is_text (c : plot_call) : bool :=
  match c with Text _ _ _ _ => true | _ => false end.

(** * Properties *)

(** ** Strings *)

Section string_facts.
Implicit Types (s t : string) (c sep : ascii).

Lemma append_nil s : EmptyString +:+ s = s.
Proof. reflexivity. Qed.

Lemma append_cons c s t : String c s +:+ t = String c (s +:+ t).
Proof. reflexivity. Qed.

Lemma split_not_nil sep s : Py.split sep s ≠ [].
Proof.
  destruct s as [|c r]; simpl; [done|].
  destruct (Ascii.eqb c sep); [done|].
  by destruct (Py.split sep r).
Qed.

Lemma split_app sep s t :
  Py.split sep (s +:+ String sep t) = Py.split sep s ++ Py.split sep t.
Proof.
  induction s as [|c r IH]; rewrite ?append_nil, ?append_cons; simpl.
  - by rewrite Ascii.eqb_refl.
  - destruct (Ascii.eqb c sep); [by rewrite IH|].
    rewrite IH.
    destruct (Py.split sep r) as [|h l] eqn:E; [by apply split_not_nil in E|].
    done.
Qed.

Lemma split_no_sep sep s : Py.has_char sep s = false → Py.split sep s = [s].
Proof.
  induction s as [|c r IH]; simpl; [done|].
  intros [Hc Hr]%orb_false_iff. rewrite Hc, (IH Hr). done.
Qed.

Lemma split_length_sep sep s :
  Py.has_char sep s = true → (2 ≤ length (Py.split sep s))%nat.
Proof.
  induction s as [|c r IH]; simpl; [done|].
  destruct (Ascii.eqb c sep); simpl.
  - intros _. pose proof (split_not_nil sep r).
    destruct (Py.split sep r); [done|simpl; lia].
  - intros Hr. specialize (IH Hr).
    destruct (Py.split sep r); simpl in *; lia.
Qed.

Lemma split_two_has_sep sep s p0 p1 rest :
  Py.split sep s = p0 :: p1 :: rest → Py.has_char sep s = true.
Proof.
  intros Hs. destruct (Py.has_char sep s) eqn:E; [done|].
  rewrite (split_no_sep _ _ E) in Hs. done.
Qed.

Lemma has_char_app c s t :
  Py.has_char c (s +:+ t) = Py.has_char c s || Py.has_char c t.
Proof.
  induction s as [|a r IH]; rewrite ?append_nil, ?append_cons; simpl; [done|].
  by rewrite IH, orb_assoc.
Qed.

(** A line with a tab is no year line. *)
Lemma re_match_year_tab s :
  Py.has_char Py.TAB s = true → Py.re_match_year s = false.
Proof.
  destruct s as [|a [|b [|c [|d r]]]]; try done.
  simpl. intros H.
  destruct (Ascii.eqb a Py.TAB) eqn:Ea.
  { apply Ascii.eqb_eq in Ea as ->. done. }
  destruct (Ascii.eqb b Py.TAB) eqn:Eb.
  { apply Ascii.eqb_eq in Eb as ->. by rewrite andb_false_r. }
  destruct (Ascii.eqb c Py.TAB) eqn:Ec.
  { apply Ascii.eqb_eq in Ec as ->. by rewrite !andb_false_r. }
  destruct (Ascii.eqb d Py.TAB) eqn:Ed.
  { apply Ascii.eqb_eq in Ed as ->. by rewrite !andb_false_r. }
  simpl in H. destruct r as [|e [|f r]]; [done| |by rewrite andb_false_r].
  simpl in H. rewrite orb_false_r in H. apply Ascii.eqb_eq in H as ->.
  by rewrite andb_false_r.
Qed.

Lemma re_match_year_truthy s : Py.re_match_year s = true → Py.truthy s = true.
Proof. by destruct s. Qed.

Section strip_facts.
Variable sp : ascii → bool.

Lemma rstrip_by_app s t :
  Py.rstrip_by sp (s +:+ t) =
    match Py.rstrip_by sp t with
    | EmptyString => Py.rstrip_by sp s
    | r => s +:+ r
    end.
Proof.
  induction s as [|c r IH]; rewrite ?append_nil, ?append_cons; simpl.
  - by destruct (Py.rstrip_by sp t).
  - rewrite IH. destruct (Py.rstrip_by sp t); [done|].
    by destruct r.
Qed.

Lemma rstrip_by_none s :
  (∀ c, Py.has_char c s = true → sp c = false) → Py.rstrip_by sp s = s.
Proof.
  induction s as [|c r IH]; simpl; [done|].
  intros H. rewrite IH.
  - destruct r; [|done]. rewrite (H c); [done|].
    by rewrite Ascii.eqb_refl.
  - intros c' Hc'. apply H. rewrite Hc'. by rewrite orb_true_r.
Qed.

Lemma has_char_rstrip_by c s :
  Py.has_char c (Py.rstrip_by sp s) = true → Py.has_char c s = true.
Proof.
  induction s as [|a r IH]; simpl; [done|].
  destruct (Py.rstrip_by sp r) as [|a' r'] eqn:E.
  - destruct (sp a); simpl; [done|]. rewrite orb_false_r.
    intros ->. done.
  - simpl in *. intros [->|H]%orb_true_iff; [done|].
    rewrite IH; [by rewrite orb_true_r|done].
Qed.
End strip_facts.
End string_facts.

(** ** Decimal numerals *)

Section numeral_facts.
Implicit Types (s : string) (u : Decimal.uint).

Lemma all_chars_has_char P c s :
  all_chars P s = true → P c = false → Py.has_char c s = false.
Proof.
  intros Hs Hc. induction s as [|a r IH]; simpl in *; [done|].
  apply andb_true_iff in Hs as [Ha Hr]. rewrite (IH Hr), orb_false_r.
  destruct (Ascii.eqb_spec a c) as [->|]; [congruence|done].
Qed.

Lemma all_chars_lstrip P sp s :
  all_chars P s = true → (∀ c, P c = true → sp c = false) →
  Py.lstrip_by sp s = s.
Proof.
  intros Hs HP. destruct s as [|a r]; simpl in *; [done|].
  apply andb_true_iff in Hs as [Ha _]. by rewrite (HP a Ha).
Qed.

Lemma all_chars_rstrip P sp s :
  all_chars P s = true → (∀ c, P c = true → sp c = false) →
  Py.rstrip_by sp s = s.
Proof.
  intros Hs HP. apply rstrip_by_none. intros c Hc.
  destruct (sp c) eqn:E; [|done].
  assert (P c = false) as HPc.
  { destruct (P c) eqn:E'; [|done]. rewrite (HP c E') in E. done. }
  by rewrite (all_chars_has_char P c s Hs HPc) in Hc.
Qed.

Lemma isdecimal_not_isspace c : Py.isdecimal c = true → Py.isspace c = false.
Proof. destruct c as [[] [] [] [] [] [] [] []]; by vm_compute. Qed.

Lemma isdecimal_not_int_space c :
  Py.isdecimal c = true → Py.int_space c = false.
Proof. destruct c as [[] [] [] [] [] [] [] []]; by vm_compute. Qed.

Lemma string_of_uint_decimal u :
  all_chars Py.isdecimal (NilEmpty.string_of_uint u) = true.
Proof. induction u; simpl; auto. Qed.

Lemma string_of_uint_not_nil u :
  u ≠ Decimal.Nil → NilEmpty.string_of_uint u ≠ EmptyString.
Proof. by destruct u. Qed.

Lemma int_digits_uint acc prev u :
  u ≠ Decimal.Nil ∨ prev = true →
  Py.int_digits acc prev (NilEmpty.string_of_uint u) = Some (uint_value acc u).
Proof.
  revert acc prev.
  induction u as [|u IH|u IH|u IH|u IH|u IH|u IH|u IH|u IH|u IH|u IH];
    intros acc prev H.
  { destruct H as [H| ->]; [done|reflexivity]. }
  all: cbn [NilEmpty.string_of_uint Py.int_digits uint_value].
  all: change (Py.isdecimal _) with true; cbn match.
  all: rewrite IH by (by right); do 2 f_equal.
  all: unfold Py.digit_value, Py.code; simpl; lia.
Qed.

Lemma uint_value_of_uint_acc u (acc : positive) :
  uint_value (Z.pos acc) u = Z.pos (Pos.of_uint_acc u acc).
Proof.
  revert acc. induction u; intros acc; simpl; [done|..].
  all: rewrite <- IHu; f_equal; lia.
Qed.

Lemma uint_value_of_uint u : uint_value 0 u = Z.of_N (Pos.of_uint u).
Proof.
  induction u; simpl; [done|done|..].
  all: apply (uint_value_of_uint_acc u).
Qed.

(** [int] on a string that begins with a digit reads no sign. *)
Lemma int_unsigned c s :
  Py.isdecimal c = true →
  Py.strip_by Py.int_space (String c s) = String c s →
  Py.int (String c s) = Py.int_digits 0 false (String c s).
Proof.
  intros Hc Hs. unfold Py.int. rewrite Hs.
  destruct c as [[] [] [] [] [] [] [] []]; try done.
Qed.

(** The decimal form of a natural number is a non-empty string of
    digits. *)
Lemma str_decimal (n : Z) :
  0 ≤ n → all_chars Py.isdecimal (Py.str n) = true ∧ Py.str n ≠ EmptyString.
Proof.
  intros Hn. destruct n as [|p|p]; [done| |lia].
  unfold Py.str. simpl.
  pose proof (DecimalPos.Unsigned.to_uint_nonnil p) as Hp.
  unfold NilZero.string_of_uint.
  destruct (Pos.to_uint p) eqn:E; try done;
    rewrite <- E; (split; [apply string_of_uint_decimal|]);
    apply string_of_uint_not_nil; by rewrite E.
Qed.

(** [int(str(n)) == n] for a natural number. *)
Lemma int_str (n : Z) : 0 ≤ n → Py.int (Py.str n) = Some n.
Proof.
  intros Hn. destruct n as [|p|p]; [done| |lia].
  destruct (str_decimal (Z.pos p) Hn) as [Hd Hne].
  unfold Py.str in *. simpl in *.
  pose proof (DecimalPos.Unsigned.to_uint_nonnil p) as Hp.
  assert (NilZero.string_of_uint (Pos.to_uint p)
          = NilEmpty.string_of_uint (Pos.to_uint p)) as Hs.
  { by destruct (Pos.to_uint p). }
  rewrite Hs in *.
  destruct (NilEmpty.string_of_uint (Pos.to_uint p)) as [|c r] eqn:E; [done|].
  simpl in Hd. apply andb_true_iff in Hd as [Hc Hr].
  rewrite int_unsigned; [|done|].
  - rewrite <- E, int_digits_uint by (by left).
    by rewrite uint_value_of_uint, DecimalPos.Unsigned.of_to.
  - unfold Py.strip_by.
    rewrite (all_chars_lstrip Py.isdecimal), (all_chars_rstrip Py.isdecimal);
      auto using isdecimal_not_int_space; simpl; by rewrite Hc, Hr.
Qed.
End numeral_facts.

(** ** Lines of the log *)

Section step_facts.
Implicit Types (stats : gmap string totals) (cur : option string)
  (raw y : string) (st : scan_state).

Lemma process_line_blank st raw :
  Py.strip raw = EmptyString → process_line st raw = st.
Proof. intros H. destruct st. unfold process_line. by rewrite H. Qed.

Lemma process_line_cursor stats cur raw :
  is_cursor raw = true →
  process_line (stats, cur) raw = (stats, Some (Py.strip raw)).
Proof.
  unfold is_cursor, process_line. intros H.
  by rewrite (re_match_year_truthy _ H), H.
Qed.

Lemma process_line_no_cursor stats raw :
  is_cursor raw = false → process_line (stats, None) raw = (stats, None).
Proof.
  unfold is_cursor, process_line. intros ->.
  by destruct (negb _).
Qed.

(** A line with a tab under a cursor runs the [try]. *)
Lemma process_line_numstat stats y raw :
  Py.truthy y = true → Py.has_char Py.TAB (Py.strip raw) = true →
  process_line (stats, Some y) raw =
    (default stats (try_numstat stats y (Py.split Py.TAB (Py.strip raw))),
     Some y).
Proof.
  intros Hy Htab. unfold process_line.
  rewrite (re_match_year_tab _ Htab), Hy, Htab.
  assert (Py.truthy (Py.strip raw) = true) as ->.
  { by destruct (Py.strip raw). }
  pose proof (split_length_sep _ _ Htab) as Hlen.
  apply Nat.leb_le in Hlen. rewrite Hlen. simpl.
  by destruct (try_numstat _ _ _).
Qed.

(** A line that is no cursor line leaves the cursor where it is. *)
Lemma process_line_keeps_cursor stats cur raw :
  is_cursor raw = false → (process_line (stats, cur) raw).2 = cur.
Proof.
  unfold is_cursor, process_line. intros ->.
  destruct (negb _); [done|]. destruct cur as [y|]; [|done].
  destruct (_ && _); [|done]. destruct (Nat.leb _ _); [|done].
  by destruct (try_numstat _ _ _).
Qed.

(** Only a line with a tab whose last field passes the filter changes
    the mapping. *)
Lemma process_line_filtered_out st raw :
  passes_filter raw = false → (process_line st raw).1 = st.1.
Proof.
  destruct st as [stats cur]. unfold passes_filter, process_line.
  intros H. destruct (negb _); [done|].
  destruct (Py.re_match_year _); [done|].
  destruct cur as [y|]; [|done].
  destruct (Py.has_char Py.TAB _) eqn:Htab;
    [|by rewrite andb_false_r].
  simpl in H. destruct (Py.truthy y); [|done]. cbn [andb].
  destruct (Nat.leb _ _); [|done].
  unfold try_numstat.
  destruct (Py.split Py.TAB _) as [|p0 [|p1 rest]]; [done..|].
  rewrite H.
  destruct (field_value p0); [|done]. by destruct (field_value p1).
Qed.

Lemma bump_lookup stats y a d :
  bump y a d stats !! y =
    Some (Totals (additions (totals_of stats y) + a)
                 (deletions (totals_of stats y) + d)).
Proof. unfold bump. by rewrite lookup_insert_eq. Qed.

Lemma bump_lookup_ne stats y y' a d :
  y ≠ y' → bump y a d stats !! y' = stats !! y'.
Proof. intros H. unfold bump. by rewrite lookup_insert_ne. Qed.
End step_facts.

(** ** Well-formed change lines *)

Section numstat_facts.
Implicit Types (a d p s : string).

Lemma contains_first c sub s :
  Py.contains (String c sub) s = true → Py.has_char c s = true.
Proof.
  induction s as [|b r IH]; simpl; [done|].
  intros [H|H]%orb_true_iff.
  - apply andb_true_iff in H as [->%Ascii.eqb_eq _].
    by rewrite Ascii.eqb_refl.
  - by rewrite IH, orb_true_r.
Qed.

Lemma endswith_first c suf s :
  Py.endswith (String c suf) s = true → Py.has_char c s = true.
Proof.
  induction s as [|b r IH]; simpl; [done|].
  intros [H|H]%orb_true_iff.
  - apply andb_true_iff in H as [->%Ascii.eqb_eq _].
    by rewrite Ascii.eqb_refl.
  - by rewrite IH, orb_true_r.
Qed.

Lemma lower_decimal s :
  all_chars Py.isdecimal s = true → Py.lower s = s.
Proof.
  induction s as [|c r IH]; simpl; [done|].
  intros [Hc Hr]%andb_true_iff. rewrite (IH Hr). f_equal.
  destruct c as [[] [] [] [] [] [] [] []]; by vm_compute.
Qed.

(** A string of digits does not pass the file filter. *)
Lemma file_filter_decimal s :
  all_chars Py.isdecimal s = true → file_filter s = false.
Proof.
  intros Hs. unfold file_filter. rewrite (lower_decimal _ Hs).
  apply orb_false_iff. split.
  - destruct (Py.contains _ s) eqn:E; [|done].
    apply contains_first in E.
    by rewrite (all_chars_has_char _ _ _ Hs) in E.
  - destruct (Py.endswith _ s) eqn:E; [|done].
    apply endswith_first in E.
    by rewrite (all_chars_has_char _ _ _ Hs) in E.
Qed.

Lemma field_value_str (n : Z) : 0 ≤ n → field_value (Py.str n) = Some n.
Proof.
  intros Hn. unfold field_value.
  destruct (String.eqb_spec (Py.str n) "-") as [E|_]; [|by apply int_str].
  destruct (str_decimal n Hn) as [Hd _]. by rewrite E in Hd.
Qed.

Lemma field_value_marker : field_value "-" = Some 0.
Proof. reflexivity. Qed.

(** What [strip] leaves of a change line: the trailing white space of
    the path goes, and with an all-blank path the tab before it. *)
Lemma strip_numstat_line a d p :
  all_chars Py.isdecimal a = true → a ≠ EmptyString →
  all_chars Py.isdecimal d = true → d ≠ EmptyString →
  Py.strip (numstat_line a d p) =
    match Py.rstrip p with
    | EmptyString => a +:+ String Py.TAB d
    | r => numstat_line a d r
    end.
Proof.
  intros Ha Hane Hd Hdne. unfold Py.strip, Py.strip_by, numstat_line.
  assert (Py.lstrip_by Py.isspace (a +:+ String Py.TAB (d +:+ String Py.TAB p))
          = a +:+ String Py.TAB (d +:+ String Py.TAB p)) as ->.
  { destruct a as [|c a']; [done|]. rewrite append_cons. simpl.
    simpl in Ha. apply andb_true_iff in Ha as [Hc _].
    by rewrite (isdecimal_not_isspace _ Hc). }
  assert (Py.rstrip_by Py.isspace d = d) as Hrd
    by eauto using all_chars_rstrip, isdecimal_not_isspace.
  assert (Py.rstrip_by Py.isspace (d +:+ String Py.TAB p) =
          match Py.rstrip p with
          | EmptyString => d
          | r => d +:+ String Py.TAB r
          end) as Hin.
  { rewrite rstrip_by_app. simpl. fold (Py.rstrip p).
    destruct (Py.rstrip p); [by rewrite Hrd|done]. }
  rewrite rstrip_by_app. simpl. rewrite Hin.
  destruct (Py.rstrip p) as [|c r].
  - destruct d; [done|]. done.
  - destruct d; by rewrite ?append_nil, ?append_cons.
Qed.

Lemma split_numstat_line a d p :
  Py.has_char Py.TAB a = false → Py.has_char Py.TAB d = false →
  Py.has_char Py.TAB p = false →
  Py.split Py.TAB (numstat_line a d p) = [a; d; p].
Proof.
  intros Ha Hd Hp. unfold numstat_line.
  by rewrite !split_app, !split_no_sep.
Qed.

Lemma split_numstat_pair a d :
  Py.has_char Py.TAB a = false → Py.has_char Py.TAB d = false →
  Py.split Py.TAB (a +:+ String Py.TAB d) = [a; d].
Proof. intros Ha Hd. by rewrite split_app, !split_no_sep. Qed.

Lemma rstrip_cons_keep c s :
  Py.isspace c = false ∨ Py.rstrip s ≠ EmptyString →
  Py.rstrip (String c s) = String c (Py.rstrip s).
Proof.
  unfold Py.rstrip. simpl. intros H.
  destruct (Py.rstrip_by Py.isspace s) eqn:E; [|done].
  destruct H as [->|H]; [done|]. by destruct H.
Qed.

Lemma lower_char_isspace c :
  Py.isspace (Py.lower_char c) = false → Py.isspace c = false.
Proof. destruct c as [[] [] [] [] [] [] [] []]; by vm_compute. Qed.

(** Trailing white space does not hide a prefix without white space. *)
Lemma startswith_lower_rstrip sub s :
  all_chars (λ c, negb (Py.isspace c)) sub = true →
  Py.startswith sub (Py.lower s) = true →
  Py.startswith sub (Py.lower (Py.rstrip s)) = true.
Proof.
  revert s. induction sub as [|a sub IH]; intros s Hsub; [done|].
  simpl in Hsub. apply andb_true_iff in Hsub as [Ha Hsub].
  destruct s as [|c r]; [done|].
  intros H. simpl in H. apply andb_true_iff in H as [Hac Hr].
  rewrite rstrip_cons_keep.
  - simpl. rewrite Hac. by apply IH.
  - left. apply lower_char_isspace.
    apply Ascii.eqb_eq in Hac as <-. by apply negb_true_iff.
Qed.

Lemma contains_lower_rstrip sub s :
  sub ≠ EmptyString →
  all_chars (λ c, negb (Py.isspace c)) sub = true →
  Py.contains sub (Py.lower s) = true →
  Py.contains sub (Py.lower (Py.rstrip s)) = true.
Proof.
  intros Hne Hsub. induction s as [|c r IH]; [done|].
  intros H. pose proof H as H'. simpl in H'.
  apply orb_true_iff in H' as [Hst|Hin].
  - assert (Py.startswith sub (Py.lower (Py.rstrip (String c r))) = true)
      as Hst' by (by apply startswith_lower_rstrip).
    destruct (Py.lower (Py.rstrip (String c r))); simpl; by rewrite Hst'.
  - specialize (IH Hin). rewrite rstrip_cons_keep.
    + simpl. by rewrite IH, orb_true_r.
    + right. intros E. rewrite E in IH. by destruct sub.
Qed.

Lemma endswith_rstrip c suf s :
  Py.isspace c = false → Py.rstrip (String c suf) = String c suf →
  Py.endswith (String c suf) s = true → Py.rstrip s = s.
Proof.
  intros Hc Hsuf. induction s as [|b r IH]; [done|].
  cbn [Py.endswith]. intros [Heq|Hend]%orb_true_iff.
  - apply String.eqb_eq in Heq. by rewrite Heq.
  - rewrite rstrip_cons_keep; [by rewrite IH|].
    right. rewrite IH by done. intros ->. done.
Qed.

(** A path that passes the file filter passes it without its trailing
    white space. *)
Lemma file_filter_rstrip p :
  file_filter p = true → file_filter (Py.rstrip p) = true.
Proof.
  unfold file_filter. intros [H|H]%orb_true_iff.
  - by rewrite contains_lower_rstrip.
  - rewrite (endswith_rstrip "." "md" p); [by rewrite H, orb_true_r|done..].
Qed.

Lemma has_char_append_tab a s :
  Py.has_char Py.TAB (a +:+ String Py.TAB s) = true.
Proof. rewrite has_char_app. simpl. by rewrite orb_true_r. Qed.
End numstat_facts.

(** ** The accumulator step on a well-formed change line *)

(** What one turn of the loop does with the change line of [a] additions
    and [d] deletions to [path], under the cursor [Y]. *)
Lemma process_numstat_line stats Y (a d : Z) path :
  0 ≤ a → 0 ≤ d → Py.re_match_year Y = true →
  Py.has_char Py.TAB path = false →
  process_line (stats, Some Y) (numstat_line (Py.str a) (Py.str d) path) =
    (if file_filter (Py.rstrip path) then bump Y a d stats else stats, Some Y).
Proof.
  intros Ha Hd HY Hp.
  destruct (str_decimal a Ha) as [Hda Hna], (str_decimal d Hd) as [Hdd Hnd].
  assert (Py.has_char Py.TAB (Py.str a) = false) as Hta
    by (by eapply all_chars_has_char).
  assert (Py.has_char Py.TAB (Py.str d) = false) as Htd
    by (by eapply all_chars_has_char).
  pose proof (strip_numstat_line _ _ path Hda Hna Hdd Hnd) as Hstrip.
  apply re_match_year_truthy in HY.
  destruct (Py.rstrip path) as [|c r] eqn:Hr.
  - rewrite process_line_numstat; [|done|rewrite Hstrip; apply has_char_append_tab].
    rewrite Hstrip, split_numstat_pair by done.
    unfold try_numstat. rewrite !field_value_str by done. simpl.
    by rewrite (file_filter_decimal _ Hdd).
  - assert (Py.has_char Py.TAB (String c r) = false) as Htr.
    { destruct (Py.has_char Py.TAB (String c r)) eqn:E; [|done].
      rewrite <- Hr in E. apply has_char_rstrip_by in E. congruence. }
    rewrite process_line_numstat;
      [|done|rewrite Hstrip; apply has_char_append_tab].
    rewrite Hstrip, split_numstat_line by done.
    unfold try_numstat. rewrite !field_value_str by done. simpl.
    by destruct (file_filter (String c r)).
Qed.

(** C1, as amended.  For every well-formed change line
    [a<TAB>d<TAB>path] processed while the cursor is [Y], the accumulator
    of [Y] gains exactly [a] additions and [d] deletions, and no other
    year changes, when the path contains ["sports_act"]
    case-insensitively or ends with [".md"], and also when the path with
    its trailing white space removed does; the mapping is unchanged when
    the path so trimmed matches neither. *)
Theorem numstat_line_accumulates stats Y (a d : Z) path :
  0 ≤ a → 0 ≤ d → Py.re_match_year Y = true →
  Py.has_char Py.TAB path = false →
  let st' :=
    process_line (stats, Some Y) (numstat_line (Py.str a) (Py.str d) path) in
  st'.2 = Some Y ∧
  (file_filter path = true → gains Y a d stats st'.1) ∧
  (file_filter (Py.rstrip path) = true → gains Y a d stats st'.1) ∧
  (file_filter (Py.rstrip path) = false → st'.1 = stats).
Proof.
  intros Ha Hd HY Hp st'. subst st'.
  rewrite process_numstat_line by done.
  assert (file_filter (Py.rstrip path) = true →
          gains Y a d stats (bump Y a d stats)) as Hgain.
  { intros _. split; [apply bump_lookup|].
    intros y Hy. by apply bump_lookup_ne. }
  split; [done|]. split; [|split].
  - intros Hf%file_filter_rstrip. rewrite Hf. by apply Hgain.
  - intros Hf. rewrite Hf. by apply Hgain.
  - by intros ->.
Qed.

Lemma numstat_line_accumulates_witness :
  gains "2023" 12 3 (<["2023" := Totals 7 2]> ∅)
    (process_line (<["2023" := Totals 7 2]> ∅, Some "2023")
       (numstat_line (Py.str 12) (Py.str 3) "docs/Sports_Act_UA.txt")).1 ∧
  (process_line (<["2023" := Totals 7 2]> ∅, Some "2023")
     (numstat_line (Py.str 12) (Py.str 3) "docs/Sports_Act_UA.txt")).1
    !! "2023" = Some (Totals 19 5).
Proof.
  pose proof (numstat_line_accumulates (<["2023" := Totals 7 2]> ∅) "2023"
                12 3 "docs/Sports_Act_UA.txt") as H.
  destruct H as (_ & H & _); [lia|lia|reflexivity|reflexivity|].
  split; [by apply H|by vm_compute].
Defined.

(** C1, as stated, fails: the path ["x.md "] (with a final space) neither
    contains ["sports_act"] nor ends with [".md"], and the line is counted
    all the same, because the line is stripped before it is split. *)
Lemma numstat_line_raw_path_counterexample :
  Py.has_char Py.TAB "x.md " = false ∧
  file_filter "x.md " = false ∧
  (process_line (∅, Some "2023")
     (numstat_line (Py.str 1) (Py.str 1) "x.md ")).1 !! "2023"
    = Some (Totals 1 1) ∧
  (∅ : gmap string totals) !! "2023" = None.
Proof. by vm_compute. Qed.

(** ** Fields of a change line *)

Section field_facts.
Implicit Types (stats : gmap string totals) (cur : option string)
  (raw : string) (rest : list string).

Lemma field_value_None f :
  field_value f = None ↔ f ≠ "-" ∧ Py.int f = None.
Proof.
  unfold field_value. destruct (String.eqb_spec f "-") as [->|Hne].
  - split; [done|]. by intros [? _].
  - split; [done|]. by intros [_ ?].
Qed.

Lemma field_value_int f v : Py.int f = Some v → field_value f = Some v.
Proof.
  unfold field_value. destruct (String.eqb_spec f "-") as [->|Hne]; [|done].
  by vm_compute.
Qed.

Lemma totals_of_bump stats Y y a d :
  totals_of (bump Y a d stats) y =
    if decide (Y = y)
    then Totals (additions (totals_of stats Y) + a)
                (deletions (totals_of stats Y) + d)
    else totals_of stats y.
Proof.
  unfold totals_of at 1. case_decide as E.
  - subst. by rewrite bump_lookup.
  - by rewrite bump_lookup_ne.
Qed.

(** The turn of the loop on a line of at least two fields, under a
    cursor. *)
Lemma process_line_fields stats Y raw p0 p1 rest :
  Py.truthy Y = true →
  Py.split Py.TAB (Py.strip raw) = p0 :: p1 :: rest →
  process_line (stats, Some Y) raw =
    (match field_value p0, field_value p1 with
     | Some a, Some d =>
         if file_filter (List.last (p0 :: p1 :: rest) EmptyString)
         then bump Y a d stats else stats
     | _, _ => stats
     end, Some Y).
Proof.
  intros HY Hs.
  rewrite process_line_numstat; [|done|by eapply split_two_has_sep].
  rewrite Hs. unfold try_numstat.
  destruct (field_value p0); [|done]. by destruct (field_value p1).
Qed.

(** A line of at least two fields either leaves the mapping as it is or
    adds the values of its first two fields to the year of the cursor. *)
Lemma process_line_cases stats cur raw p0 p1 rest :
  Py.split Py.TAB (Py.strip raw) = p0 :: p1 :: rest →
  (process_line (stats, cur) raw).1 = stats ∨
  ∃ Y a d, cur = Some Y ∧ field_value p0 = Some a ∧ field_value p1 = Some d ∧
           (process_line (stats, cur) raw).1 = bump Y a d stats.
Proof.
  intros Hs. pose proof (split_two_has_sep _ _ _ _ _ Hs) as Htab.
  destruct cur as [Y|].
  - destruct (Py.truthy Y) eqn:HY.
    + rewrite (process_line_fields _ _ _ _ _ _ HY Hs). simpl.
      destruct (field_value p0) as [a|]; [|by left].
      destruct (field_value p1) as [d|]; [|by left].
      destruct (file_filter _); [|by left].
      right. by exists Y, a, d.
    + left. unfold process_line. rewrite HY.
      destruct (negb _); [done|]. by rewrite (re_match_year_tab _ Htab).
  - left. rewrite process_line_no_cursor; [done|].
    by apply re_match_year_tab.
Qed.
End field_facts.

(** C4.  On a line whose first field (of the stripped line, as the loop
    splits it) is the marker ["-"], the additions of every year stay as
    they are; on a line whose second field is the marker, the deletions
    do.  The other field still adds its parsed value to the year of the
    cursor when the line passes the file filter. *)
Theorem marker_field_counts_zero stats cur raw p0 p1 rest :
  Py.split Py.TAB (Py.strip raw) = p0 :: p1 :: rest →
  let stats' := (process_line (stats, cur) raw).1 in
  (p0 = "-" →
   ∀ y, additions (totals_of stats' y) = additions (totals_of stats y)) ∧
  (p1 = "-" →
   ∀ y, deletions (totals_of stats' y) = deletions (totals_of stats y)) ∧
  (∀ Y v, cur = Some Y → Py.re_match_year Y = true →
     file_filter (List.last (p0 :: p1 :: rest) EmptyString) = true →
     (p0 = "-" → Py.int p1 = Some v →
      deletions (totals_of stats' Y) = deletions (totals_of stats Y) + v) ∧
     (p1 = "-" → Py.int p0 = Some v →
      additions (totals_of stats' Y) = additions (totals_of stats Y) + v)).
Proof.
  intros Hs stats'. subst stats'. split; [|split].
  - intros -> y.
    destruct (process_line_cases stats cur raw _ _ _ Hs)
      as [->|(Y & a & d & _ & Ha & _ & ->)]; [done|].
    rewrite field_value_marker in Ha. injection Ha as <-.
    rewrite totals_of_bump. case_decide; subst; simpl; [lia|done].
  - intros -> y.
    destruct (process_line_cases stats cur raw _ _ _ Hs)
      as [->|(Y & a & d & _ & _ & Hd & ->)]; [done|].
    rewrite field_value_marker in Hd. injection Hd as <-.
    rewrite totals_of_bump. case_decide; subst; simpl; [lia|done].
  - intros Y v -> HY%re_match_year_truthy Hf.
    rewrite (process_line_fields _ _ _ _ _ _ HY Hs), Hf. simpl.
    split; intros -> Hv%field_value_int; rewrite Hv, field_value_marker;
      rewrite totals_of_bump; by rewrite decide_True.
Qed.

Lemma marker_field_counts_zero_witness :
  let stats : gmap string totals := <["2021" := Totals 4 9]> ∅ in
  let raw := numstat_line "-" "6" "img/sports_act_logo.png" in
  let stats' := (process_line (stats, Some "2021") raw).1 in
  (∀ y, additions (totals_of stats' y) = additions (totals_of stats y)) ∧
  deletions (totals_of stats' "2021") = deletions (totals_of stats "2021") + 6.
Proof.
  intros stats raw stats'.
  pose proof (marker_field_counts_zero stats (Some "2021") raw
                "-" "6" ["img/sports_act_logo.png"] eq_refl) as (H0 & _ & H2).
  split; [by apply H0|].
  by apply (H2 "2021" 6 eq_refl eq_refl eq_refl).
Defined.

(** C5, as amended.  A line one of whose first two fields, taken after
    the white space around the line is stripped, is neither the marker
    nor an integer changes nothing, neither the mapping nor the cursor:
    the loop goes on to the following lines as if the line were not
    there. *)
Theorem malformed_line_skipped st raw p0 p1 rest :
  Py.split Py.TAB (Py.strip raw) = p0 :: p1 :: rest →
  (p0 ≠ "-" ∧ Py.int p0 = None) ∨ (p1 ≠ "-" ∧ Py.int p1 = None) →
  process_line st raw = st ∧
  ∀ pre post st0,
    scan_lines (pre ++ raw :: post) st0 = scan_lines (pre ++ post) st0.
Proof.
  intros Hs Hbad.
  assert (∀ st, process_line st raw = st) as Hstep.
  { clear st. intros [stats cur].
    pose proof (split_two_has_sep _ _ _ _ _ Hs) as Htab.
    destruct cur as [Y|].
    - destruct (Py.truthy Y) eqn:HY.
      + rewrite (process_line_fields _ _ _ _ _ _ HY Hs).
        destruct Hbad as [H|H]; apply field_value_None in H; rewrite H;
          [done|by destruct (field_value p0)].
      + unfold process_line. rewrite HY.
        destruct (negb _); [done|]. by rewrite (re_match_year_tab _ Htab).
    - rewrite process_line_no_cursor; [done|]. by apply re_match_year_tab. }
  split; [apply Hstep|].
  intros pre post st0. unfold scan_lines.
  rewrite !fold_left_app. cbn [fold_left]. by rewrite Hstep.
Qed.

Lemma malformed_line_skipped_witness :
  process_line (<["2020" := Totals 1 1]> ∅, Some "2020")
    (numstat_line "abc" "1" "file.md")
  = (<["2020" := Totals 1 1]> ∅, Some "2020") ∧
  ∀ pre post st0,
    scan_lines (pre ++ numstat_line "abc" "1" "file.md" :: post) st0
    = scan_lines (pre ++ post) st0.
Proof.
  apply (malformed_line_skipped _ _ "abc" "1" ["file.md"]);
    [reflexivity|left; split; [discriminate|reflexivity]].
Defined.

(** C5, as stated, fails.  The first field of the first line below begins
    with the separator U+001C, which [int] does not accept and [strip]
    removes: the field is no integer and no marker, and the line is
    counted all the same.  In the second line the first two fields are
    both of that kind. *)
Lemma malformed_raw_field_counterexample :
  (Py.split Py.TAB (numstat_line (String "028" "5") "3" "a.md")
   = [String "028" "5"; "3"; "a.md"] ∧
   Py.int (String "028" "5") = None ∧
   process_line (∅, Some "2023") (numstat_line (String "028" "5") "3" "a.md")
   = (<["2023" := Totals 5 3]> ∅, Some "2023")) ∧
  (Py.split Py.TAB
     (String "028" (String Py.TAB (numstat_line (String "028" "5") "3" "a.md")))
   = [String "028" EmptyString; String "028" "5"; "3"; "a.md"] ∧
   Py.int (String "028" EmptyString) = None ∧
   Py.int (String "028" "5") = None ∧
   process_line (∅, Some "2023")
     (String "028" (String Py.TAB (numstat_line (String "028" "5") "3" "a.md")))
   = (<["2023" := Totals 5 3]> ∅, Some "2023")).
Proof. by vm_compute. Qed.

(** ** The loop over the whole log *)

Section scan_facts.
Implicit Types (stats : gmap string totals) (cur : option string)
  (lines pre post : list string) (st : scan_state).

Lemma scan_lines_app pre post st :
  scan_lines (pre ++ post) st = scan_lines post (scan_lines pre st).
Proof. apply fold_left_app. Qed.

Lemma scan_lines_snoc pre raw st :
  scan_lines (pre ++ [raw]) st = process_line (scan_lines pre st) raw.
Proof. by rewrite scan_lines_app. Qed.

(** Without a cursor line, a loop that starts without a cursor changes
    nothing. *)
Lemma scan_lines_no_cursor lines stats :
  Forall (λ l, is_cursor l = false) lines →
  scan_lines lines (stats, None) = (stats, None).
Proof.
  induction 1 as [|l ls Hl _ IH]; [done|].
  unfold scan_lines in *. cbn [fold_left].
  by rewrite process_line_no_cursor.
Qed.



End scan_facts.

(** C9.  The lines before the first year line are ignored: the log
    parses to what the part from the first year line on parses to, and
    the lines before it alone parse to the empty mapping. *)
Theorem lines_before_first_year_ignored (pre post : string) :
  Forall (λ l, is_cursor l = false) (Py.split Py.NL pre) →
  parse_log (pre +:+ String Py.NL post) = parse_log post ∧
  parse_log pre = ∅.
Proof.
  intros H. unfold parse_log.
  rewrite split_app, scan_lines_app.
  by rewrite !(scan_lines_no_cursor (Py.split Py.NL pre)).
Qed.

Lemma lines_before_first_year_ignored_witness :
  parse_log (unlines [numstat_line "5" "3" "intro.md"; "  ";
                      numstat_line "-" "-" "sports_act.pdf"]
             +:+ String Py.NL
               (unlines ["2019"; numstat_line "2" "1" "sports_act.md"]))
  = parse_log (unlines ["2019"; numstat_line "2" "1" "sports_act.md"]) ∧
  parse_log (unlines [numstat_line "5" "3" "intro.md"; "  ";
                      numstat_line "-" "-" "sports_act.pdf"]) = ∅.
Proof.
  apply lines_before_first_year_ignored.
  vm_compute. repeat constructor.
Defined.

(** C8.  When the command returns with nothing on its standard output,
    [get_git_stats] returns the empty mapping, whatever the return code
    and the standard error of the command are. *)
Theorem empty_output_empty_mapping
    (run : list string → outcome CompletedProcess) repo_path result :
  run (git_log_cmd repo_path) = Returned result →
  stdout result = EmptyString →
  get_git_stats run repo_path = Returned ∅.
Proof. unfold get_git_stats. by intros -> ->. Qed.

Lemma empty_output_empty_mapping_witness :
  get_git_stats
    (λ _, Returned {| returncode := 128; stdout := EmptyString;
                      stderr := "fatal: not a git repository" |})
    "/tmp" = Returned ∅.
Proof.
  by apply (empty_output_empty_mapping _ "/tmp"
              {| returncode := 128; stdout := EmptyString;
                 stderr := "fatal: not a git repository" |}).
Defined.

(** ** Signs of the totals *)

Section sign_facts.
Implicit Types (stats : gmap string totals) (st : scan_state).

Lemma totals_of_nonneg stats y :
  nonneg_stats stats →
  0 ≤ additions (totals_of stats y) ∧ 0 ≤ deletions (totals_of stats y).
Proof.
  intros H. unfold totals_of.
  destruct (stats !! y) as [r|] eqn:E; [by eapply H|done].
Qed.

Lemma bump_nonneg stats y a d :
  0 ≤ a → 0 ≤ d → nonneg_stats stats → nonneg_stats (bump y a d stats).
Proof.
  intros Ha Hd H y' r. destruct (decide (y = y')) as [<-|Hne].
  - rewrite bump_lookup. intros [= <-]. simpl.
    pose proof (totals_of_nonneg stats y H). lia.
  - rewrite bump_lookup_ne by done. apply H.
Qed.

Lemma process_line_nonneg st raw :
  nonneg_line raw = true → nonneg_stats st.1 →
  nonneg_stats (process_line st raw).1.
Proof.
  destruct st as [stats cur]. unfold nonneg_line. intros Hl Hst.
  destruct (Py.split Py.TAB (Py.strip raw)) as [|p0 [|p1 rest]] eqn:Hs.
  - by apply split_not_nil in Hs.
  - rewrite process_line_filtered_out; [done|].
    unfold passes_filter.
    destruct (Py.has_char Py.TAB (Py.strip raw)) eqn:E; [|done].
    apply split_length_sep in E. rewrite Hs in E. simpl in E. lia.
  - simpl in Hl. rewrite andb_true_r in Hl.
    apply andb_true_iff in Hl as [H0 H1].
    destruct (process_line_cases stats cur raw _ _ _ Hs)
      as [->|(Y & a & d & _ & Ha & Hd & ->)]; [done|].
    unfold nonneg_field in *. rewrite Ha in H0. rewrite Hd in H1.
    apply bump_nonneg; [lia|lia|done].
Qed.

Lemma scan_lines_nonneg lines st :
  forallb nonneg_line lines = true → nonneg_stats st.1 →
  nonneg_stats (scan_lines lines st).1.
Proof.
  revert st. induction lines as [|raw lines IH]; intros st; [done|].
  simpl. intros [Hl Hls]%andb_true_iff Hst.
  apply IH; [done|]. by apply process_line_nonneg.
Qed.
End sign_facts.

(** C2, as amended.  For every log in which neither of the first two
    fields of a line is a negative integer, every record of the mapping
    has additions and deletions that are not negative. *)
Theorem totals_nonneg out y r :
  nonneg_log out = true →
  parse_log out !! y = Some r → 0 ≤ additions r ∧ 0 ≤ deletions r.
Proof.
  intros Hout. unfold parse_log.
  by apply (scan_lines_nonneg (Py.split Py.NL out) (∅, None)).
Qed.

Lemma totals_nonneg_witness :
  parse_log (unlines ["2024"; numstat_line "10" "7" "sports_act.md";
                      numstat_line "-" "-" "sports_act.png";
                      numstat_line "x" "3" "notes.md";
                      numstat_line "2" "0" "README.md"]) !! "2024"
  = Some (Totals 12 7) ∧
  0 ≤ additions (Totals 12 7) ∧ 0 ≤ deletions (Totals 12 7).
Proof.
  split; [by vm_compute|].
  apply (totals_nonneg
           (unlines ["2024"; numstat_line "10" "7" "sports_act.md";
                     numstat_line "-" "-" "sports_act.png";
                     numstat_line "x" "3" "notes.md";
                     numstat_line "2" "0" "README.md"]) "2024");
    [by vm_compute|by vm_compute].
Defined.

(** C2, as stated, fails: [int] reads a signed literal, and a line with a
    negative count under a year makes the total of the year negative. *)
Lemma totals_nonneg_counterexample :
  parse_log (unlines ["2023"; numstat_line "-5" "0" "a.md"]) !! "2023"
  = Some (Totals (-5) 0) ∧
  ¬ (0 ≤ additions (Totals (-5) 0)).
Proof. split; [by vm_compute|simpl; lia]. Qed.

(** ** Which years get an entry *)

Section entry_facts.
Implicit Types (stats : gmap string totals) (cur : option string)
  (lines pre post seg : list string) (raw Y : string).

Lemma cursor_of_spec Y raw :
  cursor_of Y raw = true ↔ is_cursor raw = true ∧ Py.strip raw = Y.
Proof.
  unfold cursor_of. by rewrite andb_true_iff, String.eqb_eq.
Qed.

Lemma passes_filter_not_cursor raw :
  passes_filter raw = true → is_cursor raw = false.
Proof.
  unfold passes_filter, is_cursor.
  intros [H _]%andb_true_iff. by apply re_match_year_tab.
Qed.

(** A turn of the loop changes the mapping only on a line that passes
    the filter, and then only at the year of the cursor. *)
Lemma process_line_changes stats cur raw :
  (process_line (stats, cur) raw).1 = stats ∨
  passes_filter raw = true ∧
  ∃ Y a d, cur = Some Y ∧ (process_line (stats, cur) raw).1 = bump Y a d stats.
Proof.
  destruct (passes_filter raw) eqn:Hf.
  - pose proof Hf as [Htab _]%andb_true_iff.
    pose proof (split_length_sep _ _ Htab) as Hlen.
    destruct (Py.split Py.TAB (Py.strip raw)) as [|p0 [|p1 rest]] eqn:Hs;
      [simpl in Hlen; lia..|].
    destruct (process_line_cases stats cur raw _ _ _ Hs)
      as [?|(Y & a & d & ? & _ & _ & ?)]; [by left|].
    right. split; [done|]. by exists Y, a, d.
  - left. by apply (process_line_filtered_out (stats, cur)).
Qed.

Lemma process_line_other_year stats cur raw Y :
  cur ≠ Some Y → (process_line (stats, cur) raw).1 !! Y = stats !! Y.
Proof.
  intros Hne.
  destruct (process_line_changes stats cur raw)
    as [->|(_ & Y' & a & d & -> & ->)]; [done|].
  apply bump_lookup_ne. congruence.
Qed.

Lemma process_line_next_cursor stats cur raw :
  (process_line (stats, cur) raw).2 =
    if is_cursor raw then Some (Py.strip raw) else cur.
Proof.
  destruct (is_cursor raw) eqn:E.
  - by rewrite process_line_cursor.
  - by apply process_line_keeps_cursor.
Qed.

(** While the cursor is not [Y], the entry of [Y] stays as it is. *)
Lemma scan_lines_other_year lines stats cur Y :
  cur ≠ Some Y → Forall (λ l, cursor_of Y l = false) lines →
  (scan_lines lines (stats, cur)).1 !! Y = stats !! Y.
Proof.
  intros Hcur H. revert stats cur Hcur.
  induction H as [|l ls Hl _ IH]; intros stats cur Hcur; [done|].
  unfold scan_lines in *. cbn [fold_left].
  destruct (process_line (stats, cur) l) as [stats' cur'] eqn:E.
  rewrite IH.
  - change stats' with (stats', cur').1. rewrite <- E.
    by apply process_line_other_year.
  - change cur' with (stats', cur').2. rewrite <- E.
    rewrite process_line_next_cursor.
    destruct (is_cursor l) eqn:Hc; [|done].
    intros [= HY]. unfold cursor_of in Hl. rewrite Hc in Hl. simpl in Hl.
    by apply String.eqb_neq in Hl.
Qed.

(** The invariant of the loop: the cursor comes from a cursor line with
    no other cursor line after it, and every key of the mapping has a
    line that passes the filter in a segment of its year. *)
Lemma scan_lines_invariant lines :
  (∀ Y, (scan_lines lines (∅, None)).2 = Some Y → under_cursor lines Y) ∧
  (∀ Y, is_Some ((scan_lines lines (∅, None)).1 !! Y) → matched_under lines Y).
Proof.
  induction lines as [|raw lines [IHc IHm]] using rev_ind.
  { split; intros Y; simpl; [done|]. rewrite lookup_empty. by intros [? ?]. }
  rewrite scan_lines_snoc.
  destruct (scan_lines lines (∅, None)) as [stats cur] eqn:E.
  simpl in IHc, IHm.
  assert (∀ Y, matched_under lines Y → matched_under (lines ++ [raw]) Y)
    as Hkeep.
  { intros Y (pre & c & seg & l & post & -> & Hc & Hseg & Hl).
    exists pre, c, seg, l, (post ++ [raw]).
    by rewrite <- !app_assoc, <- !app_comm_cons, <- app_assoc. }
  split; intros Y.
  - rewrite process_line_next_cursor.
    destruct (is_cursor raw) eqn:Hraw.
    + intros [= <-]. exists lines, raw, []. split; [done|].
      split; [|constructor]. by apply cursor_of_spec.
    + intros (pre & c & seg & -> & Hc & Hseg)%IHc.
      exists pre, c, (seg ++ [raw]). rewrite <- app_assoc. split; [done|].
      split; [done|]. apply Forall_app. split; [done|]. by constructor.
  - destruct (process_line_changes stats cur raw)
      as [->|(Hf & Y' & a & d & -> & ->)]; [by intros ?%IHm%Hkeep|].
    destruct (decide (Y' = Y)) as [->|Hne].
    + intros _. destruct (IHc Y eq_refl) as (pre & c & seg & -> & Hc & Hseg).
      exists pre, c, seg, raw, []. by rewrite <- app_assoc.
    + rewrite bump_lookup_ne by done. by intros ?%IHm%Hkeep.
Qed.
End entry_facts.

(** C3, as amended.  If no cursor line of the year [Y] is followed, before
    the next cursor line or the end of the input, by a line that passes
    the file filter, the mapping has no entry for [Y]. *)
Theorem year_without_match_absent out Y :
  (∀ pre c seg post,
     Py.split Py.NL out = pre ++ c :: seg ++ post →
     cursor_of Y c = true → same_segment seg →
     Forall (λ l, passes_filter l = false) seg) →
  parse_log out !! Y = None.
Proof.
  intros H. apply eq_None_not_Some. unfold parse_log.
  intros (pre & c & seg & l & post & Heq & Hc & Hseg & Hl)
    %(proj2 (scan_lines_invariant _)).
  specialize (H pre c (seg ++ [l]) post).
  rewrite <- app_assoc in H. specialize (H Heq Hc).
  assert (same_segment (seg ++ [l])) as Hseg'.
  { apply Forall_app. split; [done|]. constructor; [|done].
    by apply passes_filter_not_cursor. }
  apply H, Forall_app in Hseg' as [_ Hl'].
  rewrite Forall_singleton in Hl'. congruence.
Qed.

Lemma year_without_match_absent_witness :
  parse_log (unlines ["2023"; numstat_line "1" "1" "main.c"; "2024";
                      numstat_line "1" "1" "sports_act.md"; "2023"; "  "])
    !! "2023" = None.
Proof.
  apply year_without_match_absent. intros pre c seg post Heq Hc Hseg.
  assert (Py.split Py.NL
            (unlines ["2023"; numstat_line "1" "1" "main.c"; "2024";
                      numstat_line "1" "1" "sports_act.md"; "2023"; "  "])
          = ["2023"; numstat_line "1" "1" "main.c"; "2024";
             numstat_line "1" "1" "sports_act.md"; "2023"; "  "]) as Hsplit
    by (by vm_compute).
  rewrite Hsplit in Heq. clear Hsplit. unfold same_segment in Hseg.
  destruct pre as [|? [|? [|? [|? [|? [|? [|? ?]]]]]]]; simplify_eq/=;
    try (by vm_compute in Hc).
  all: destruct seg as [|? [|? [|? [|? [|? [|? ?]]]]]]; simplify_eq/=.
  all: try (by repeat constructor).
  all: repeat (apply Forall_cons in Hseg as [? Hseg]).
  all: match goal with H : is_cursor _ = false |- _ => by vm_compute in H end.
Defined.

(** C3, as stated, fails: in this log the last line is a cursor line of
    2023 with no line after it, and yet 2023 has an entry, from the line
    that follows the first cursor line of 2023. *)
Lemma year_without_match_counterexample :
  Py.split Py.NL (unlines ["2023"; numstat_line "1" "1" "a.md"; "2023"])
  = ["2023"; numstat_line "1" "1" "a.md"] ++ "2023" :: [] ++ [] ∧
  cursor_of "2023" "2023" = true ∧
  parse_log (unlines ["2023"; numstat_line "1" "1" "a.md"; "2023"]) !! "2023"
  = Some (Totals 1 1).
Proof. by vm_compute. Qed.



(** ** The chart *)

Section chart_facts.
Implicit Types (stats : gmap string totals) (i j : nat) (h : Z)
  (c e y : string).

Lemma sorted_Permutation (l : list string) : sorted l ≡ₚ l.
Proof. apply merge_sort_Permutation. Qed.

Lemma sorted_StronglySorted (l : list string) :
  StronglySorted String.le (sorted l).
Proof. apply (StronglySorted_merge_sort String.le). Qed.

Lemma elem_of_keys stats y : y ∈ keys stats ↔ is_Some (stats !! y).
Proof.
  unfold keys. rewrite list_elem_of_fmap. split.
  - intros ([y' r] & -> & H%elem_of_map_to_list). by exists r.
  - intros [r H]. exists (y, r). by rewrite elem_of_map_to_list.
Qed.

Lemma NoDup_keys stats : NoDup (keys stats).
Proof. apply NoDup_fst_map_to_list. Qed.

(** The bars of one turn of the drawing loop. *)
Lemma elem_of_draw_year i j h c e y (add dele : Z) :
  Bar j h c e ∈ draw_year i (y, (add, dele)) ↔
  j = i ∧
  (h = add ∧ 0 < add ∧ c = addition_color ∧ e = addition_edge ∨
   h = dele ∧ dele < 0 ∧ c = deletion_color ∧ e = deletion_edge).
Proof.
  unfold draw_year.
  destruct (Z.ltb_spec 0 add) as [Ha|Ha], (Z.ltb_spec dele 0) as [Hd|Hd];
    rewrite elem_of_app, ?elem_of_cons, ?elem_of_nil; split.
  all: try (intros [[[= -> -> -> ->]|[[=]|[]]]|[[= -> -> -> ->]|[[=]|[]]]];
            by auto 10).
  all: try (intros [[[= -> -> -> ->]|[[=]|[]]]|[]]; by auto 10).
  all: try (intros [[]|[[= -> -> -> ->]|[[=]|[]]]]; by auto 10).
  all: try (by intros [[]|[]]).
  all: intros [-> [(-> & ? & -> & ->)|(-> & ? & -> & ->)]];
    first [lia|by auto 10].
Qed.

(** The turns of the drawing loop: one for each year, in the order of
    [sorted]. *)
Lemma lookup_chart_rows stats i row :
  zip (sorted (keys stats))
      (zip ((λ y, additions (getitem stats y)) <$> sorted (keys stats))
           ((λ y, - deletions (getitem stats y)) <$> sorted (keys stats)))
    !! i = Some row ↔
  ∃ y, sorted (keys stats) !! i = Some y ∧
       row = (y, (additions (getitem stats y), - deletions (getitem stats y))).
Proof.
  rewrite lookup_zip_with_Some. split.
  - intros (y & [a d] & -> & Hy & Hz). exists y. split; [done|].
    apply lookup_zip_with_Some in Hz as (a' & d' & [= -> ->] & Ha & Hd).
    rewrite list_lookup_fmap, Hy in Ha, Hd. by simplify_eq/=.
  - intros (y & Hy & ->). eexists y, (_, _). split; [done|]. split; [done|].
    apply lookup_zip_with_Some. do 2 eexists. split; [done|].
    by rewrite !list_lookup_fmap, Hy.
Qed.

(** Every bar of the chart. *)
Lemma elem_of_chart_bar stats output_path i h c e :
  Bar i h c e ∈ chart_calls stats output_path ↔
  ∃ y, sorted (keys stats) !! i = Some y ∧
    (h = additions (getitem stats y) ∧ 0 < h ∧
     c = addition_color ∧ e = addition_edge ∨
     h = - deletions (getitem stats y) ∧ h < 0 ∧
     c = deletion_color ∧ e = deletion_edge).
Proof.
  unfold chart_calls. cbv zeta.
  rewrite !elem_of_app, list_elem_of_join. split.
  - intros [H|[(l & Hin & Hl)|H]].
    + apply list_elem_of_singleton in H. done.
    + apply elem_of_lookup_imap in Hl as (k & row & -> & Hrow).
      apply lookup_chart_rows in Hrow as (y & Hy & ->).
      apply elem_of_draw_year in Hin as [-> Hin].
      exists y. split; [done|].
      destruct Hin as [(-> & ? & -> & ->)|(-> & ? & -> & ->)]; auto 10.
    + repeat (apply elem_of_cons in H as [H|H]; [done|]).
      by apply elem_of_nil in H.
  - intros (y & Hy & H). right. left.
    exists (draw_year i (y, (additions (getitem stats y),
                             - deletions (getitem stats y)))).
    split.
    + apply elem_of_draw_year. split; [done|].
      destruct H as [(-> & ? & -> & ->)|(-> & ? & -> & ->)]; auto 10.
    + apply elem_of_lookup_imap. eexists i, _. split; [done|].
      apply lookup_chart_rows. by exists y.
Qed.
Lemma exec_app lib (made a b : list plot_call) :
  exec lib made (a ++ b) =
    match exec lib made a with
    | (d, None) => exec lib d b
    | (d, Some e) => (d, Some e)
    end.
Proof.
  revert made. induction a as [|c a IH]; intros made; [done|].
  cbn [app exec]. destruct (lib made c); [done|]. apply IH.
Qed.

(** The calls completed are the calls made before and a first part of
    the calls to make. *)
Lemma exec_prefix lib (made todo : list plot_call) :
  ∃ k, (exec lib made todo).1 = made ++ take k todo.
Proof.
  revert made. induction todo as [|c todo IH]; intros made.
  - exists 0%nat. by rewrite app_nil_r.
  - cbn [exec]. destruct (lib made c).
    + exists 0%nat. by rewrite app_nil_r.
    + destruct (IH (made ++ [c])) as [k Hk]. exists (S k).
      by rewrite Hk, <- app_assoc.
Qed.

(** A run that ends without an exception has completed every call. *)
Lemma exec_complete lib (made todo : list plot_call) :
  (exec lib made todo).2 = None → (exec lib made todo).1 = made ++ todo.
Proof.
  revert made. induction todo as [|c todo IH]; intros made.
  - by rewrite app_nil_r.
  - cbn [exec]. destruct (lib made c); [done|].
    intros H. by rewrite (IH _ H), <- app_assoc.
Qed.

Lemma exec_quiet (made todo : list plot_call) :
  exec quiet_library made todo = (made ++ todo, None).
Proof.
  revert made. induction todo as [|c todo IH]; intros made.
  - by rewrite app_nil_r.
  - cbn [exec]. unfold quiet_library at 1. by rewrite IH, <- app_assoc.
Qed.

Lemma elem_of_exec lib (made todo : list plot_call) (x : plot_call) :
  x ∈ (exec lib made todo).1 → x ∈ made ++ todo.
Proof.
  destruct (exec_prefix lib made todo) as [k ->].
  rewrite !elem_of_app. intros [H|H]; [by left|right].
  rewrite <- (take_drop k todo). apply elem_of_app. by left.
Qed.

Lemma exec_filter_length lib (P : plot_call → bool)
    (made todo : list plot_call) :
  (length (List.filter P (exec lib made todo).1)
   ≤ length (List.filter P (made ++ todo)))%nat.
Proof.
  destruct (exec_prefix lib made todo) as [k ->].
  rewrite <- (take_drop k todo) at 2.
  rewrite (app_assoc made), (List.filter_app P (made ++ take k todo)).
  rewrite length_app. lia.
Qed.

(** The calls of [create_chart] are calls of [chart_calls], and all of
    them when the run ends without an exception. *)
Lemma elem_of_create_chart lib stats output_path (x : plot_call) :
  x ∈ (create_chart lib stats output_path).1 →
  x ∈ chart_calls stats output_path.
Proof. apply (elem_of_exec lib []). Qed.

Lemma create_chart_complete lib stats output_path :
  (create_chart lib stats output_path).2 = None →
  (create_chart lib stats output_path).1 = chart_calls stats output_path.
Proof. apply (exec_complete lib []). Qed.
End chart_facts.

(** The bars among the calls of a chart that is drawn to the end. *)
Lemma chart_calls_bars stats output_path :
  let years := sorted (keys stats) in
  let chart := chart_calls stats output_path in
  (StronglySorted String.le years ∧ NoDup years ∧
   ∀ y, y ∈ years ↔ is_Some (stats !! y)) ∧
  (SetXticks (seq 0 (length years)) ∈ chart ∧ SetXticklabels years ∈ chart) ∧
  (∀ i y r, years !! i = Some y → stats !! y = Some r →
     (Bar i (additions r) addition_color addition_edge ∈ chart
      ↔ 0 < additions r) ∧
     (Bar i (- deletions r) deletion_color deletion_edge ∈ chart
      ↔ 0 < deletions r)) ∧
  (∀ i h c e, Bar i h c e ∈ chart →
     ∃ y r, years !! i = Some y ∧ stats !! y = Some r ∧
       (h = additions r ∧ c = addition_color ∧ e = addition_edge ∨
        h = - deletions r ∧ c = deletion_color ∧ e = deletion_edge)).
Proof.
  intros years chart. subst years chart.
  split; [|split; [|split]].
  - split; [apply sorted_StronglySorted|].
    split; [rewrite sorted_Permutation; apply NoDup_keys|].
    intros y. rewrite sorted_Permutation. apply elem_of_keys.
  - unfold chart_calls. cbv zeta. rewrite !elem_of_app.
    split; right; right;
      [apply list_elem_of_here
      |apply list_elem_of_further, list_elem_of_here].
  - intros i y r Hy Hr. rewrite !elem_of_chart_bar. split; split.
    + intros (y' & Hy' & Hb). assert (y' = y) as -> by congruence.
      unfold getitem in Hb. rewrite Hr in Hb. simpl in Hb.
      destruct Hb as [Hb|Hb]; [lia|]. by destruct Hb as (_ & _ & ? & _).
    + intros Hpos. exists y. split; [done|].
      unfold getitem. rewrite Hr. simpl. by left.
    + intros (y' & Hy' & Hb). assert (y' = y) as -> by congruence.
      unfold getitem in Hb. rewrite Hr in Hb. simpl in Hb.
      destruct Hb as [Hb|Hb]; [|lia]. by destruct Hb as (_ & _ & ? & _).
    + intros Hpos. exists y. split; [done|].
      unfold getitem. rewrite Hr. simpl. right. repeat split; lia.
  - intros i h c e (y & Hy & Hb)%elem_of_chart_bar.
    assert (is_Some (stats !! y)) as [r Hr].
    { apply elem_of_keys. rewrite <- sorted_Permutation.
      by eapply list_elem_of_lookup_2. }
    exists y, r. split; [done|]. split; [done|].
    unfold getitem in Hb. rewrite Hr in Hb. simpl in Hb.
    destruct Hb as [(-> & _ & -> & ->)|(-> & _ & -> & ->)]; auto.
Qed.

(** C6, as amended.  The years are laid out in ascending lexicographic
    order, each key of the mapping once: position [i] of the axis is the
    [i]-th year in that order.  Every bar drawn is, at the position of a
    year, the upward bar of height [additions], with [additions > 0], or
    the downward bar of height [- deletions], with [deletions > 0].  When
    no call raises, the ticks are set and, for each year, the upward bar
    is drawn if and only if [additions > 0] and the downward bar if and
    only if [deletions > 0]. *)
Theorem bars_follow_sorted_years lib stats output_path :
  let years := sorted (keys stats) in
  let drawn := (create_chart lib stats output_path).1 in
  (StronglySorted String.le years ∧ NoDup years ∧
   ∀ y, y ∈ years ↔ is_Some (stats !! y)) ∧
  (∀ i h c e, Bar i h c e ∈ drawn →
     ∃ y r, years !! i = Some y ∧ stats !! y = Some r ∧
       (h = additions r ∧ 0 < additions r ∧
        c = addition_color ∧ e = addition_edge ∨
        h = - deletions r ∧ 0 < deletions r ∧
        c = deletion_color ∧ e = deletion_edge)) ∧
  ((create_chart lib stats output_path).2 = None →
   (SetXticks (seq 0 (length years)) ∈ drawn ∧
    SetXticklabels years ∈ drawn) ∧
   ∀ i y r, years !! i = Some y → stats !! y = Some r →
     (Bar i (additions r) addition_color addition_edge ∈ drawn
      ↔ 0 < additions r) ∧
     (Bar i (- deletions r) deletion_color deletion_edge ∈ drawn
      ↔ 0 < deletions r)).
Proof.
  intros years drawn. subst years drawn.
  destruct (chart_calls_bars stats output_path) as (Hyears & Hticks & Hiff & _).
  split; [done|]. split.
  - intros i h c e (y & Hy & Hb)%elem_of_create_chart%elem_of_chart_bar.
    assert (is_Some (stats !! y)) as [r Hr].
    { apply elem_of_keys. rewrite <- sorted_Permutation.
      by eapply list_elem_of_lookup_2. }
    exists y, r. split; [done|]. split; [done|].
    unfold getitem in Hb. rewrite Hr in Hb. simpl in Hb.
    destruct Hb as [(-> & ? & -> & ->)|(-> & ? & -> & ->)];
      [left|right]; repeat split; lia.
  - intros Hdone. rewrite (create_chart_complete _ _ _ Hdone). by split.
Qed.

Lemma bars_follow_sorted_years_witness :
  (Bar 0 100 addition_color addition_edge
     ∈ (create_chart quiet_library
          (<["2023" := Totals 5 0]> (<["2022" := Totals 100 40]> ∅))
          "changes.png").1
   ↔ 0 < 100) ∧
  (Bar 1 (- 0) deletion_color deletion_edge
     ∈ (create_chart quiet_library
          (<["2023" := Totals 5 0]> (<["2022" := Totals 100 40]> ∅))
          "changes.png").1
   ↔ 0 < 0).
Proof.
  destruct (bars_follow_sorted_years quiet_library
              (<["2023" := Totals 5 0]> (<["2022" := Totals 100 40]> ∅))
              "changes.png") as (_ & _ & H).
  destruct (H eq_refl) as (_ & Hiff).
  split.
  - by apply (Hiff 0%nat "2022" (Totals 100 40)).
  - by apply (Hiff 1%nat "2023" (Totals 5 0)).
Defined.

(** C6, as stated, fails.  Nothing catches the exception of a plotting
    call: with a library whose [bar] raises on a height beyond every
    float, the year has [additions > 0] and no bar, and neither ticks nor
    file follow. *)
Lemma bars_overflow_counterexample :
  0 < additions (Totals (10 ^ 309) 0) ∧
  create_chart overflow_library (<["2023" := Totals (10 ^ 309) 0]> ∅)
    "changes.png"
  = ([Subplots 14 6], Some "OverflowError") ∧
  Bar 0 (10 ^ 309) addition_color addition_edge ∉ [Subplots 14 6].
Proof.
  split; [done|]. split; [by vm_compute|].
  by intros [=]%list_elem_of_singleton.
Qed.

(** * Further properties of the extractor *)

Section year_key_facts.
Implicit Types (s raw Y : string).

Lemma rstrip_by_idemp sp s :
  Py.rstrip_by sp (Py.rstrip_by sp s) = Py.rstrip_by sp s.
Proof.
  induction s as [|c r IH]; simpl; [done|].
  destruct (Py.rstrip_by sp r) as [|c' r'] eqn:E.
  - destruct (sp c) eqn:Ec; simpl; [done|]. by rewrite Ec.
  - simpl in *. by rewrite IH.
Qed.



Lemma strip_rstrip s : Py.rstrip (Py.strip s) = Py.strip s.
Proof. apply rstrip_by_idemp. Qed.

(** The year line that sets the cursor has exactly four digits: the final
    newline that [$] allows is stripped before the match. *)
Lemma is_cursor_four_digits raw :
  is_cursor raw = true → four_digits (Py.strip raw) = true.
Proof.
  unfold is_cursor. intros H. pose proof (strip_rstrip raw) as Hr.
  destruct (Py.strip raw) as [|a [|b [|c [|d [|e [|f r]]]]]]; try done.
  - cbn [Py.re_match_year] in H. rewrite andb_true_r in H. simpl. exact H.
  - cbn [Py.re_match_year] in H.
    apply andb_true_iff in H as [_ ->%Ascii.eqb_eq].
    unfold Py.rstrip in Hr. simpl in Hr.
    by destruct (Py.isspace d), (Py.isspace c), (Py.isspace b), (Py.isspace a).
  - cbn [Py.re_match_year] in H. by rewrite andb_false_r in H.
Qed.

Lemma four_digits_decimal Y :
  four_digits Y = true → all_chars Py.isdecimal Y = true.
Proof.
  destruct Y as [|a [|b [|c [|d [|e r]]]]]; try done.
  simpl. intros [[[Ha Hb]%andb_true_iff Hc]%andb_true_iff Hd]%andb_true_iff.
  by rewrite Ha, Hb, Hc, Hd.
Qed.

Lemma four_digits_strip Y : four_digits Y = true → Py.strip Y = Y.
Proof.
  intros H%four_digits_decimal. unfold Py.strip, Py.strip_by.
  rewrite (all_chars_lstrip Py.isdecimal), (all_chars_rstrip Py.isdecimal);
    auto using isdecimal_not_isspace.
Qed.

Lemma four_digits_cursor Y : four_digits Y = true → is_cursor Y = true.
Proof.
  intros H. unfold is_cursor. rewrite (four_digits_strip _ H).
  destruct Y as [|a [|b [|c [|d [|e r]]]]]; try done.
  simpl in *. by rewrite H.
Qed.
End year_key_facts.

(** X1.  Every key of the mapping is a string of exactly four decimal
    digits. *)
Theorem keys_are_years out Y :
  is_Some (parse_log out !! Y) → four_digits Y = true.
Proof.
  unfold parse_log.
  intros (pre & c & seg & l & post & _ & Hc & _)
    %(proj2 (scan_lines_invariant _)).
  apply cursor_of_spec in Hc as [Hc <-]. by apply is_cursor_four_digits.
Qed.

Lemma keys_are_years_witness :
  is_Some (parse_log (unlines [" 2023 "; numstat_line "1" "2" "a.md"])
             !! "2023") ∧
  four_digits "2023" = true.
Proof.
  assert (is_Some (parse_log (unlines [" 2023 "; numstat_line "1" "2" "a.md"])
                     !! "2023")) as H by (eexists; by vm_compute).
  split; [done|]. by apply (keys_are_years _ _ H).
Defined.

(** X2.  A line that, once stripped, has no tab and is no year line (an
    empty line, a line of white space, any other text) changes nothing:
    the loop goes on as if the line were not there. *)
Theorem line_without_tab_ignored st raw :
  is_cursor raw = false → Py.has_char Py.TAB (Py.strip raw) = false →
  process_line st raw = st ∧
  ∀ pre post st0,
    scan_lines (pre ++ raw :: post) st0 = scan_lines (pre ++ post) st0.
Proof.
  intros Hc Htab.
  assert (∀ st, process_line st raw = st) as Hstep.
  { clear st. intros [stats cur]. unfold process_line.
    unfold is_cursor in Hc. rewrite Hc.
    destruct (negb _); [done|]. destruct cur as [y|]; [|done].
    by rewrite Htab, andb_false_r. }
  split; [done|]. intros pre post st0.
  unfold scan_lines. rewrite !fold_left_app. cbn [fold_left].
  by rewrite Hstep.
Qed.

Lemma line_without_tab_ignored_witness :
  process_line (<["2020" := Totals 1 1]> ∅, Some "2020") "  commit 20231 "
  = (<["2020" := Totals 1 1]> ∅, Some "2020") ∧
  ∀ pre post st0,
    scan_lines (pre ++ "  commit 20231 " :: post) st0
    = scan_lines (pre ++ post) st0.
Proof.
  apply (line_without_tab_ignored _ "  commit 20231 "); reflexivity.
Defined.


(** X4.  The loop never removes a year: a key of the mapping after some
    lines is a key after any further lines. *)
Theorem entries_never_removed pre post st Y :
  is_Some ((scan_lines pre st).1 !! Y) →
  is_Some ((scan_lines (pre ++ post) st).1 !! Y).
Proof.
  rewrite scan_lines_app. generalize (scan_lines pre st). clear pre st.
  induction post as [|l ls IH]; intros [stats cur] H; [done|].
  unfold scan_lines in *. cbn [fold_left]. apply IH.
  destruct (process_line_changes stats cur l)
    as [Heq|(_ & Y' & a & d & _ & Heq)];
    destruct (process_line (stats, cur) l) as [stats' cur'];
    simpl in *; subst stats'; [done|].
  destruct (decide (Y' = Y)) as [->|Hne].
  - by rewrite bump_lookup.
  - by rewrite bump_lookup_ne.
Qed.

Lemma entries_never_removed_witness :
  is_Some ((scan_lines (["2021"; numstat_line "3" "1" "a.md"] ++
                        ["2022"; numstat_line "x" "1" "b.md"; "2021"])
              (∅, None)).1 !! "2021").
Proof.
  apply (entries_never_removed ["2021"; numstat_line "3" "1" "a.md"]).
  eexists. by vm_compute.
Defined.

(** ** Logs put one after the other *)

Section merge_facts.
Implicit Types (stats m : gmap string totals) (cur : option string)
  (raw Y : string).

(** What a turn of the loop does, for every mapping at once. *)
Lemma process_line_contribution stats cur raw :
  process_line (stats, cur) raw =
    (match contribution cur raw with
     | Some (Y, a, d) => bump Y a d stats
     | None => stats
     end,
     if is_cursor raw then Some (Py.strip raw) else cur).
Proof.
  pose proof (process_line_next_cursor stats cur raw) as Hcur.
  assert ((process_line (stats, cur) raw).1 =
          match contribution cur raw with
          | Some (Y, a, d) => bump Y a d stats
          | None => stats
          end) as Hstats.
  { unfold contribution.
    destruct (Py.split Py.TAB (Py.strip raw)) as [|p0 [|p1 rest]] eqn:Hs.
    - by apply split_not_nil in Hs.
    - assert (passes_filter raw = false) as Hf.
      { unfold passes_filter.
        destruct (Py.has_char Py.TAB (Py.strip raw)) eqn:E; [|done].
        apply split_length_sep in E. rewrite Hs in E. simpl in E. lia. }
      rewrite (process_line_filtered_out (stats, cur) raw Hf).
      by destruct cur.
    - pose proof (split_two_has_sep _ _ _ _ _ Hs) as Htab.
      destruct cur as [Y|].
      + destruct (Py.truthy Y) eqn:HY.
        * rewrite (process_line_fields _ _ _ _ _ _ HY Hs). cbn [fst andb].
          destruct (field_value p0) as [a|], (field_value p1) as [d|],
            (file_filter _); done.
        * cbn [andb]. unfold process_line. rewrite HY.
          destruct (negb _); [done|]. by rewrite (re_match_year_tab _ Htab).
      + rewrite process_line_no_cursor; [done|]. by apply re_match_year_tab. }
  destruct (process_line (stats, cur) raw) as [stats' cur'].
  simpl in Hcur, Hstats. by subst.
Qed.

Lemma add_totals_zero_l r : add_totals zero_totals r = r.
Proof. by destruct r. Qed.

Lemma add_totals_zero_r r : add_totals r zero_totals = r.
Proof. destruct r. unfold add_totals. simpl. f_equal; lia. Qed.

Lemma add_totals_comm r1 r2 : add_totals r1 r2 = add_totals r2 r1.
Proof. unfold add_totals. f_equal; lia. Qed.

Lemma lookup_merge_stats m1 m2 Y :
  merge_stats m1 m2 !! Y =
    match m1 !! Y, m2 !! Y with
    | Some r1, Some r2 => Some (add_totals r1 r2)
    | Some r, None | None, Some r => Some r
    | None, None => None
    end.
Proof.
  unfold merge_stats. rewrite lookup_union_with.
  by destruct (m1 !! Y), (m2 !! Y).
Qed.

Lemma totals_of_merge_stats m1 m2 Y :
  totals_of (merge_stats m1 m2) Y
  = add_totals (totals_of m1 Y) (totals_of m2 Y).
Proof.
  unfold totals_of. rewrite lookup_merge_stats.
  destruct (m1 !! Y), (m2 !! Y); simpl;
    by rewrite ?add_totals_zero_l, ?add_totals_zero_r.
Qed.

Lemma merge_stats_comm m1 m2 : merge_stats m1 m2 = merge_stats m2 m1.
Proof.
  apply map_eq. intros Y. rewrite !lookup_merge_stats.
  destruct (m1 !! Y), (m2 !! Y); try done. by rewrite add_totals_comm.
Qed.

Lemma merge_stats_empty_r m : merge_stats m ∅ = m.
Proof.
  apply map_eq. intros Y. rewrite lookup_merge_stats, lookup_empty.
  by destruct (m !! Y).
Qed.

Lemma bump_merge_stats m0 m Y a d :
  bump Y a d (merge_stats m0 m) = merge_stats m0 (bump Y a d m).
Proof.
  apply map_eq. intros y. destruct (decide (Y = y)) as [<-|Hne].
  - rewrite lookup_merge_stats, !bump_lookup, totals_of_merge_stats.
    unfold totals_of, add_totals.
    destruct (m0 !! Y) as [r0|]; simpl; do 2 f_equal; lia.
  - rewrite lookup_merge_stats, !bump_lookup_ne by done.
    by rewrite lookup_merge_stats.
Qed.

(** The loop adds to the mapping it starts from. *)
Lemma scan_lines_merge_stats lines m0 m cur :
  scan_lines lines (merge_stats m0 m, cur) =
    (merge_stats m0 (scan_lines lines (m, cur)).1,
     (scan_lines lines (m, cur)).2).
Proof.
  revert m cur. induction lines as [|l ls IH]; intros m cur; [done|].
  unfold scan_lines in *. cbn [fold_left].
  rewrite !process_line_contribution.
  destruct (contribution cur l) as [[[Y a] d]|]; [|apply IH].
  rewrite bump_merge_stats. apply IH.
Qed.
End merge_facts.

Lemma parse_log_append (a b : string) :
  starts_with_cursor b = true →
  parse_log (a +:+ String Py.NL b)
  = merge_stats (parse_log a) (parse_log b).
Proof.
  unfold starts_with_cursor, parse_log. intros Hb.
  rewrite split_app, scan_lines_app.
  destruct (Py.split Py.NL b) as [|c rest]; [done|].
  destruct (scan_lines (Py.split Py.NL a) (∅, None)) as [ma cura].
  change (c :: rest) with ([c] ++ rest). rewrite !scan_lines_app.
  change (scan_lines [c] (ma, cura)) with (process_line (ma, cura) c).
  change (scan_lines [c] (∅, None)) with (process_line (∅, None) c).
  rewrite !process_line_cursor by done.
  rewrite <- (merge_stats_empty_r ma) at 1.
  by rewrite scan_lines_merge_stats.
Qed.

(** X5.  When the second of two logs begins with a year line, the log
    made of the first, a newline and the second parses to the sum, year
    by year, of what the two logs parse to: a year of both has the sums
    of its additions and of its deletions, a year of one its entry
    there. *)
Theorem log_concatenation_adds (a b : string) Y :
  starts_with_cursor b = true →
  parse_log (a +:+ String Py.NL b) !! Y =
    match parse_log a !! Y, parse_log b !! Y with
    | Some r1, Some r2 => Some (add_totals r1 r2)
    | Some r, None | None, Some r => Some r
    | None, None => None
    end.
Proof. intros Hb. by rewrite parse_log_append, lookup_merge_stats. Qed.

Lemma log_concatenation_adds_witness :
  parse_log (unlines ["2023"; numstat_line "1" "2" "a.md"; "2024";
                      numstat_line "5" "5" "b.md"]
             +:+ String Py.NL
               (unlines ["2024"; numstat_line "10" "0" "c.md"])) !! "2024"
  = Some (Totals 15 5).
Proof.
  by rewrite (log_concatenation_adds
                (unlines ["2023"; numstat_line "1" "2" "a.md"; "2024";
                          numstat_line "5" "5" "b.md"])
                (unlines ["2024"; numstat_line "10" "0" "c.md"]) "2024"
                eq_refl).
Defined.

(** X6.  The order of two logs that both begin with a year line does not
    matter: one after the other, either way, they parse to the same
    mapping. *)
Theorem log_order_irrelevant (a b : string) :
  starts_with_cursor a = true → starts_with_cursor b = true →
  parse_log (a +:+ String Py.NL b) = parse_log (b +:+ String Py.NL a).
Proof.
  intros Ha Hb.
  rewrite (parse_log_append a b Hb), (parse_log_append b a Ha).
  apply merge_stats_comm.
Qed.

Lemma log_order_irrelevant_witness :
  parse_log (unlines ["2023"; numstat_line "1" "2" "a.md"]
             +:+ String Py.NL
               (unlines ["2024"; numstat_line "10" "0" "c.md"; "2023";
                         numstat_line "4" "4" "sports_act.txt"]))
  = parse_log (unlines ["2024"; numstat_line "10" "0" "c.md"; "2023";
                        numstat_line "4" "4" "sports_act.txt"]
               +:+ String Py.NL
                 (unlines ["2023"; numstat_line "1" "2" "a.md"])).
Proof. by apply log_order_irrelevant. Defined.

(** ** The file filter *)

Section filter_facts.
Implicit Types (p q m : string).

Lemma endswith_append p suf : Py.endswith suf (p +:+ suf) = true.
Proof.
  induction p as [|c r IH]; rewrite ?append_nil, ?append_cons.
  - destruct suf; simpl; [done|]. by rewrite Ascii.eqb_refl, String.eqb_refl.
  - cbn [Py.endswith]. by rewrite IH, orb_true_r.
Qed.

Lemma startswith_append m q : Py.startswith m (m +:+ q) = true.
Proof.
  induction m as [|c r IH]; rewrite ?append_nil, ?append_cons; simpl.
  - by destruct q.
  - by rewrite Ascii.eqb_refl.
Qed.

Lemma contains_append p m q : Py.contains m (p +:+ (m +:+ q)) = true.
Proof.
  induction p as [|c r IH]; rewrite ?append_nil, ?append_cons.
  - destruct (m +:+ q) eqn:E; simpl; rewrite <- ?E;
      by rewrite startswith_append.
  - cbn [Py.contains]. by rewrite IH, orb_true_r.
Qed.

Lemma lower_append p q : Py.lower (p +:+ q) = Py.lower p +:+ Py.lower q.
Proof.
  induction p as [|c r IH]; rewrite ?append_nil, ?append_cons; simpl; [done|].
  by rewrite IH.
Qed.
End filter_facts.

(** X7.  The file filter lets through every path that ends with [".md"],
    whatever the file is called, and every path that contains the marker
    in any mix of upper and lower case. *)
Theorem file_filter_breadth :
  (∀ p, file_filter (p +:+ ".md") = true) ∧
  (∀ p m q, Py.lower m = "sports_act" → file_filter (p +:+ (m +:+ q)) = true).
Proof.
  unfold file_filter. split.
  - intros p. by rewrite endswith_append, orb_true_r.
  - intros p m q Hm. by rewrite !lower_append, Hm, contains_append.
Qed.

(** ** Well-formed logs, end to end *)

Section render_facts.
Implicit Types (m : gmap string totals) (cur : option string)
  (Y : string) (files : list (Z * Z * string)) (commits : list commit)
  (L : list (Z * Z)).

Lemma split_unlines (ls : list string) :
  Forall (λ l, Py.has_char Py.NL l = false) ls →
  Py.split Py.NL (unlines ls) =
    match ls with [] => [EmptyString] | _ => ls end.
Proof.
  induction 1 as [|l ls Hl Hls IH]; [done|].
  destruct ls as [|l' ls].
  - simpl. by apply split_no_sep.
  - change (unlines (l :: l' :: ls))
      with (l +:+ String Py.NL (unlines (l' :: ls))).
    by rewrite split_app, IH, split_no_sep.
Qed.

Lemma scan_unlines (ls : list string) st :
  Forall (λ l, Py.has_char Py.NL l = false) ls →
  scan_lines (Py.split Py.NL (unlines ls)) st = scan_lines ls st.
Proof.
  intros H. rewrite (split_unlines _ H). destruct ls; [|done].
  unfold scan_lines. simpl. by destruct st.
Qed.

Lemma decimal_no_newline (s : string) :
  all_chars Py.isdecimal s = true → Py.has_char Py.NL s = false.
Proof. intros H. by eapply all_chars_has_char. Qed.

Lemma file_line_no_newline f :
  wf_file f = true → Py.has_char Py.NL (file_line f) = false.
Proof.
  destruct f as [[a d] p]. unfold wf_file, file_line, numstat_line. simpl.
  intros [[[Ha Hd]%andb_true_iff _]%andb_true_iff Hp%negb_true_iff]
    %andb_true_iff.
  apply Z.leb_le in Ha, Hd.
  rewrite !has_char_app. cbn [Py.has_char]. rewrite has_char_app.
  cbn [Py.has_char].
  rewrite (decimal_no_newline _ (proj1 (str_decimal a Ha))).
  rewrite (decimal_no_newline _ (proj1 (str_decimal d Hd))).
  by rewrite Hp.
Qed.

Lemma commit_lines_no_newline commits :
  forallb wf_commit commits = true →
  Forall (λ l, Py.has_char Py.NL l = false) (commits ≫= commit_lines).
Proof.
  induction commits as [|[Y files] cs IH]; [constructor|].
  intros H. cbn [forallb] in H. apply andb_true_iff in H as [H Hcs].
  unfold wf_commit in H. simpl in H. apply andb_true_iff in H as [HY Hfiles].
  rewrite bind_cons. apply Forall_app. split; [|by apply IH].
  unfold commit_lines. simpl.
  constructor; [by apply decimal_no_newline, four_digits_decimal|].
  constructor; [done|].
  apply Forall_fmap, Forall_forall. intros f Hf.
  apply file_line_no_newline.
  rewrite forallb_forall in Hfiles. apply Hfiles. by apply list_elem_of_In.
Qed.

(** The change lines of a commit, under its cursor. *)
Lemma scan_file_lines m Y files :
  four_digits Y = true → forallb wf_file files = true →
  scan_lines (file_line <$> files) (m, Some Y) =
    (foldl (λ m f, if counted f then bump Y f.1.1 f.1.2 m else m) m files,
     Some Y).
Proof.
  intros HY. revert m.
  induction files as [|[[a d] p] fs IH]; intros m; [done|].
  intros H. cbn [forallb] in H. apply andb_true_iff in H as [Hf Hfs].
  unfold wf_file in Hf. simpl in Hf.
  apply andb_true_iff in Hf as [[[Ha Hd]%andb_true_iff Hp%negb_true_iff]
                                  %andb_true_iff _].
  apply Z.leb_le in Ha, Hd.
  unfold scan_lines in *. rewrite fmap_cons. cbn [fold_left].
  change (file_line (a, d, p)) with (numstat_line (Py.str a) (Py.str d) p).
  rewrite process_numstat_line; [|done|done| |done].
  - by rewrite IH.
  - pose proof (four_digits_cursor _ HY) as Hc. unfold is_cursor in Hc.
    by rewrite (four_digits_strip _ HY) in Hc.
Qed.

Lemma scan_commit_lines m cur c :
  wf_commit c = true →
  scan_lines (commit_lines c) (m, cur) =
    (foldl (λ m f, if counted f then bump c.1 f.1.1 f.1.2 m else m) m c.2,
     Some c.1).
Proof.
  destruct c as [Y files]. unfold wf_commit. cbn [fst snd].
  intros [HY Hfiles]%andb_true_iff.
  change (commit_lines (Y, files))
    with ([Y; EmptyString] ++ (file_line <$> files)).
  rewrite scan_lines_app.
  assert (scan_lines [Y; EmptyString] (m, cur) = (m, Some Y)) as ->.
  { unfold scan_lines. cbn [fold_left].
    rewrite process_line_cursor by (by apply four_digits_cursor).
    rewrite process_line_blank by done. by rewrite four_digits_strip. }
  by apply scan_file_lines.
Qed.

Lemma Z_sum_snoc (l : list Z) x : Z_sum (l ++ [x]) = Z_sum l + x.
Proof. induction l as [|y l IH]; simpl; lia. Qed.

Lemma totals_of_expected m Y L :
  m !! Y = expected_entry L →
  totals_of m Y = Totals (Z_sum L.*1) (Z_sum L.*2).
Proof. unfold totals_of. intros ->. by destruct L. Qed.

Lemma expected_entry_snoc L a d :
  expected_entry (L ++ [(a, d)])
  = Some (Totals (Z_sum L.*1 + a) (Z_sum L.*2 + d)).
Proof.
  unfold expected_entry. destruct (L ++ [(a, d)]) eqn:E.
  - by destruct L.
  - rewrite <- E, !fmap_app.
    change ([(a, d)].*1) with [a]. change ([(a, d)].*2) with [d].
    by rewrite !Z_sum_snoc.
Qed.

Lemma fold_files_lookup m Y Y0 files L :
  m !! Y0 = expected_entry L →
  foldl (λ m f, if counted f then bump Y f.1.1 f.1.2 m else m) m files !! Y0
  = expected_entry (L ++ if String.eqb Y Y0 then counts_of files else []).
Proof.
  revert m L. induction files as [|[[a d] p] fs IH]; intros m L Hm.
  - simpl. unfold counts_of. simpl.
    destruct (String.eqb Y Y0); by rewrite app_nil_r.
  - cbn [foldl]. unfold counts_of. cbn [List.filter].
    destruct (counted (a, d, p)) eqn:Hc; [|by apply IH].
    cbn [fst snd]. destruct (String.eqb_spec Y Y0) as [->|Hne].
    + rewrite fmap_cons. cbn [fst].
      rewrite (IH _ (L ++ [(a, d)])).
      * by rewrite <- app_assoc.
      * rewrite bump_lookup, (totals_of_expected _ _ _ Hm).
        by rewrite expected_entry_snoc.
    + rewrite (IH _ L); [done|]. by rewrite bump_lookup_ne.
Qed.

Lemma scan_commits_lookup m cur commits Y0 L :
  forallb wf_commit commits = true → m !! Y0 = expected_entry L →
  (scan_lines (commits ≫= commit_lines) (m, cur)).1 !! Y0
  = expected_entry (L ++ matching Y0 commits).
Proof.
  revert m cur L. induction commits as [|c cs IH]; intros m cur L.
  - intros _ Hm. simpl. by rewrite app_nil_r.
  - intros H Hm. cbn [forallb] in H. apply andb_true_iff in H as [Hc Hcs].
    unfold matching. rewrite !bind_cons, scan_lines_app.
    rewrite (scan_commit_lines _ _ _ Hc), app_assoc.
    apply IH; [done|]. by apply fold_files_lookup.
Qed.
End render_facts.

Lemma parse_render_log commits Y :
  forallb wf_commit commits = true →
  parse_log (render_log commits) !! Y = expected_entry (matching Y commits).
Proof.
  intros Hwf. unfold parse_log, render_log.
  rewrite scan_unlines by (by apply commit_lines_no_newline).
  by apply (scan_commits_lookup ∅ None commits Y []).
Qed.

(** X8.  On the log of a list of well-formed commits (a four-digit year,
    then for each file its counts and its path), the entry of a year is
    the sum of the additions and the sum of the deletions over the files
    of the commits of that year whose path, without trailing white
    space, passes the file filter; a year without such a file has no
    entry. *)
Theorem well_formed_log_totals commits Y :
  forallb wf_commit commits = true →
  parse_log (render_log commits) !! Y = expected_entry (matching Y commits).
Proof. apply parse_render_log. Qed.

Lemma well_formed_log_totals_witness :
  parse_log (render_log
               [("2024", [(3, 1, "sports_act.md"); (9, 9, "main.c")]);
                ("2023", [(5, 0, "README.md")]);
                ("2024", [(10, 4, "docs/Sports_Act.txt")]);
                ("2022", [(7, 7, "logo.png")])]) !! "2024"
  = Some (Totals 13 5).
Proof.
  by rewrite (well_formed_log_totals
                [("2024", [(3, 1, "sports_act.md"); (9, 9, "main.c")]);
                 ("2023", [(5, 0, "README.md")]);
                 ("2024", [(10, 4, "docs/Sports_Act.txt")]);
                 ("2022", [(7, 7, "logo.png")])] "2024" eq_refl).
Defined.

(** * Further properties of the renderer *)

Section label_facts.
Implicit Types (stats : gmap string totals) (i : nat) (y : string).

(** What one turn of the drawing loop draws is in the chart. *)
Lemma elem_of_chart_row stats output_path i y x :
  sorted (keys stats) !! i = Some y →
  x ∈ draw_year i (y, (additions (getitem stats y),
                        - deletions (getitem stats y))) →
  x ∈ chart_calls stats output_path.
Proof.
  intros Hy Hx. unfold chart_calls. cbv zeta.
  rewrite !elem_of_app, list_elem_of_join. right. left.
  eexists. split; [exact Hx|].
  apply elem_of_lookup_imap. eexists i, _. split; [done|].
  apply lookup_chart_rows. by exists y.
Qed.

Lemma length_sorted_keys stats : length (sorted (keys stats)) = size stats.
Proof.
  rewrite (Permutation_length (sorted_Permutation _)).
  unfold keys. by rewrite length_fmap, length_map_to_list.
Qed.

Lemma filter_join_imap_le {A} (P : plot_call → bool)
    (f : nat → A → list plot_call) (n : nat) (rows : list A) :
  (∀ i r, (length (List.filter P (f i r)) ≤ n)%nat) →
  (length (List.filter P (mjoin (imap f rows))) ≤ n * length rows)%nat.
Proof.
  revert f. induction rows as [|r rows IH]; intros f Hf; [simpl; lia|].
  rewrite imap_cons. cbn [mjoin list_join]. rewrite List.filter_app, length_app.
  specialize (IH (f ∘ S) (λ i r, Hf (S i) r)). specialize (Hf 0%nat r).
  cbn [length]. rewrite Nat.mul_succ_r, (Nat.add_comm (n * _)).
  by apply Nat.add_le_mono.
Qed.

Lemma filter_join_imap_eq {A} (P Q : plot_call → bool)
    (f : nat → A → list plot_call) (rows : list A) :
  (∀ i r, length (List.filter P (f i r)) = length (List.filter Q (f i r))) →
  length (List.filter P (mjoin (imap f rows)))
  = length (List.filter Q (mjoin (imap f rows))).
Proof.
  revert f. induction rows as [|r rows IH]; intros f Hf; [done|].
  rewrite imap_cons. cbn [mjoin list_join].
  rewrite !List.filter_app, !length_app.
  f_equal; [apply Hf|]. apply IH. intros i r'. apply (Hf (S i)).
Qed.

Lemma draw_year_counts i row :
  length (List.filter is_text (draw_year i row))
  = length (List.filter is_bar (draw_year i row)) ∧
  (length (List.filter is_bar (draw_year i row)) ≤ 2)%nat.
Proof.
  destruct row as [y [add dele]]. unfold draw_year.
  destruct (0 <? add), (dele <? 0); simpl; lia.
Qed.
End label_facts.

(** The labels among the calls of a chart that is drawn to the end. *)
Lemma chart_calls_labelled stats output_path i h c e :
  Bar i h c e ∈ chart_calls stats output_path →
  0 < h ∧ Text i (h + 5) (Py.str h) "bottom" ∈ chart_calls stats output_path ∨
  h < 0 ∧
  Text i (h - 5) (Py.str (Z.abs h)) "top" ∈ chart_calls stats output_path.
Proof.
  intros (y & Hy & Hb)%elem_of_chart_bar.
  destruct Hb as [(-> & Hpos & _)|(-> & Hneg & _)]; [left|right];
    (split; [done|]); apply (elem_of_chart_row _ _ i y); try done;
    unfold draw_year.
  - apply Z.ltb_lt in Hpos. rewrite Hpos. apply elem_of_app. left.
    apply list_elem_of_further, list_elem_of_here.
  - apply Z.ltb_lt in Hneg. rewrite Hneg. apply elem_of_app. right.
    apply list_elem_of_further, list_elem_of_here.
Qed.

Lemma chart_calls_counts stats output_path :
  length (List.filter is_text (chart_calls stats output_path))
  = length (List.filter is_bar (chart_calls stats output_path)) ∧
  (length (List.filter is_bar (chart_calls stats output_path))
   ≤ 2 * size stats)%nat.
Proof.
  unfold chart_calls. cbv zeta.
  rewrite !List.filter_app, !length_app. cbn [List.filter is_bar is_text length].
  rewrite !Nat.add_0_r. split.
  - apply filter_join_imap_eq. intros i r. apply draw_year_counts.
  - etrans.
    { apply (filter_join_imap_le is_bar draw_year 2).
      intros i r. apply draw_year_counts. }
    rewrite length_zip_with_l_eq, length_sorted_keys; [done|].
    by rewrite length_zip_with_l_eq, !length_fmap by (by rewrite !length_fmap).
Qed.

(** X9.  A bar that is drawn is upward with a height above zero or
    downward with a height below zero, never of height zero; and when no
    call raises, it has its label at the same position: above an upward
    bar, five units over its end, the height; below a downward bar, five
    units under its end, the absolute value of the height. *)
Theorem every_bar_is_labelled lib stats output_path i h c e :
  Bar i h c e ∈ (create_chart lib stats output_path).1 →
  0 < h ∧
  ((create_chart lib stats output_path).2 = None →
   Text i (h + 5) (Py.str h) "bottom"
     ∈ (create_chart lib stats output_path).1) ∨
  h < 0 ∧
  ((create_chart lib stats output_path).2 = None →
   Text i (h - 5) (Py.str (Z.abs h)) "top"
     ∈ (create_chart lib stats output_path).1).
Proof.
  intros Hb%elem_of_create_chart.
  destruct (chart_calls_labelled _ _ _ _ _ _ Hb) as [[Hh Ht]|[Hh Ht]];
    [left|right]; (split; [done|]); intros Hdone;
    by rewrite (create_chart_complete _ _ _ Hdone).
Qed.

Lemma every_bar_is_labelled_witness :
  Text 0 (-45) (Py.str (Z.abs (-40))) "top"
    ∈ (create_chart quiet_library (<["2022" := Totals 100 40]> ∅)
         "changes.png").1.
Proof.
  destruct (every_bar_is_labelled quiet_library
              (<["2022" := Totals 100 40]> ∅)
              "changes.png" 0 (-40) deletion_color deletion_edge)
    as [[Hpos _]|[_ H]]; [|lia|by apply H].
  unfold create_chart, create_chart_from. rewrite exec_quiet. cbn [fst app].
  apply elem_of_chart_bar. exists "2022". split; [by vm_compute|].
  right. by vm_compute.
Defined.

(** X10.  The chart has at most two bars for each year of the mapping,
    so none for the empty mapping; and when no call raises, it has as
    many labels as bars. *)
Theorem bars_and_labels_counted lib stats output_path :
  (length (List.filter is_bar (create_chart lib stats output_path).1)
   ≤ 2 * size stats)%nat ∧
  ((create_chart lib stats output_path).2 = None →
   length (List.filter is_text (create_chart lib stats output_path).1)
   = length (List.filter is_bar (create_chart lib stats output_path).1)).
Proof.
  destruct (chart_calls_counts stats output_path) as [Heq Hle]. split.
  - etrans; [apply (exec_filter_length lib is_bar [])|]. exact Hle.
  - intros Hdone. by rewrite (create_chart_complete _ _ _ Hdone).
Qed.

Lemma bars_and_labels_counted_witness :
  length (List.filter is_text
            (create_chart quiet_library
               (<["2023" := Totals 5 0]> (<["2022" := Totals 100 40]> ∅))
               "changes.png").1)
  = length (List.filter is_bar
              (create_chart quiet_library
                 (<["2023" := Totals 5 0]> (<["2022" := Totals 100 40]> ∅))
                 "changes.png").1).
Proof.
  by apply (bars_and_labels_counted quiet_library
              (<["2023" := Totals 5 0]> (<["2022" := Totals 100 40]> ∅))
              "changes.png").
Defined.

(** * Properties of the entry point *)

Section main_facts.
Variable lib : library.
Variable run : list string → outcome CompletedProcess.
Variable script_dir : string.

(** After a successful extraction the script is one run of calls. *)
Lemma main_returned stats :
  get_git_stats run script_dir = Returned stats →
  main lib run script_dir =
    exec lib [] (first_print :: summary_calls stats ++
                 chart_calls stats (path_join script_dir "changes.png")).
Proof.
  intros Hget. unfold main. rewrite Hget.
  change (first_print :: summary_calls stats ++ chart_calls stats
            (path_join script_dir "changes.png"))
    with ([first_print] ++ summary_calls stats ++ chart_calls stats
            (path_join script_dir "changes.png")).
  rewrite exec_app. fold first_print.
  destruct (exec lib [] [first_print]) as [made [e|]]; [done|].
  rewrite exec_app.
  by destruct (exec lib made (summary_calls stats)) as [made' [e|]].
Qed.

(** When the command cannot be started, the script ends with an
    exception after its first print at most. *)
Lemma main_raised e :
  get_git_stats run script_dir = Raised e →
  (main lib run script_dir).2 ≠ None ∧
  ∀ x, x ∈ (main lib run script_dir).1 → x = first_print.
Proof.
  intros Hget. unfold main. rewrite Hget. fold first_print.
  pose proof (elem_of_exec lib [] [first_print]) as Hin.
  destruct (exec lib [] [first_print]) as [made [e'|]]; (split; [done|]);
    intros x Hx%Hin; by apply list_elem_of_singleton in Hx.
Qed.
End main_facts.

(** X11.  When the command returns with nothing on its standard output,
    as [git] does outside a repository, whatever its return code,
    extraction raises nothing and the script goes on as for 0 years: it
    makes, until a call raises, the calls of the two prints and of the
    chart of the empty mapping, among them no bar; when no call raises it
    has announced data for 0 years and saved a chart next to the
    script. *)
Theorem empty_output_saves_empty_chart lib
    (run : list string → outcome CompletedProcess) script_dir result :
  run (git_log_cmd script_dir) = Returned result →
  stdout result = EmptyString →
  main lib run script_dir =
    exec lib []
      ([PrintLine "Extracting git statistics...";
        PrintLine "Found data for 0 years:"] ++
       chart_calls ∅ (path_join script_dir "changes.png")) ∧
  (∀ x, x ∈ (main lib run script_dir).1 → is_bar x = false) ∧
  ((main lib run script_dir).2 = None →
   PrintLine "Found data for 0 years:" ∈ (main lib run script_dir).1 ∧
   Savefig (path_join script_dir "changes.png") 150 "white"
     ∈ (main lib run script_dir).1).
Proof.
  intros Hrun Hout.
  assert (get_git_stats run script_dir = Returned ∅) as Hget.
  { unfold get_git_stats. by rewrite Hrun, Hout. }
  rewrite (main_returned lib run script_dir ∅ Hget).
  change (first_print :: summary_calls ∅ ++
          chart_calls ∅ (path_join script_dir "changes.png"))
    with ([PrintLine "Extracting git statistics...";
           PrintLine "Found data for 0 years:"] ++
          chart_calls ∅ (path_join script_dir "changes.png")).
  split; [done|]. split.
  - intros x Hx%elem_of_exec. cbn [app] in Hx.
    destruct (is_bar x) eqn:E; [|done]. destruct x; try done.
    do 2 (apply elem_of_cons in Hx as [Hx|Hx]; [done|]).
    by apply elem_of_chart_bar in Hx as (y & Hy & _).
  - intros Hdone. rewrite (exec_complete _ _ _ Hdone). cbn [app]. split.
    + apply list_elem_of_further, list_elem_of_here.
    + do 2 apply list_elem_of_further.
      unfold chart_calls. cbv zeta. rewrite !elem_of_app. do 2 right.
      do 14 apply list_elem_of_further. apply list_elem_of_here.
Qed.

Lemma empty_output_saves_empty_chart_witness :
  Savefig "/srv/act/changes.png" 150 "white"
    ∈ (main quiet_library
         (λ _, Returned {| returncode := 128; stdout := EmptyString;
                           stderr := "fatal: not a git repository" |})
         "/srv/act").1.
Proof.
  destruct (empty_output_saves_empty_chart quiet_library
              (λ _, Returned {| returncode := 128; stdout := EmptyString;
                                stderr := "fatal: not a git repository" |})
              "/srv/act"
              {| returncode := 128; stdout := EmptyString;
                 stderr := "fatal: not a git repository" |} eq_refl eq_refl)
    as (_ & _ & H).
  by apply H.
Defined.

(** X12.  On the log of well-formed commits, when no call raises, the
    script has printed for every year that has a file that counts the
    line of that year: two spaces, the year, [+] and the sum of the
    additions, [-] and the sum of the deletions of the files that
    count. *)
Theorem main_prints_year_totals lib
    (run : list string → outcome CompletedProcess) script_dir result
    commits Y :
  run (git_log_cmd script_dir) = Returned result →
  stdout result = render_log commits →
  forallb wf_commit commits = true →
  matching Y commits ≠ [] →
  (main lib run script_dir).2 = None →
  PrintLine (summary_line Y (Totals (Z_sum (matching Y commits).*1)
                                    (Z_sum (matching Y commits).*2)))
    ∈ (main lib run script_dir).1.
Proof.
  intros Hrun Hout Hwf Hne.
  pose proof (parse_render_log commits Y Hwf) as HY.
  assert (expected_entry (matching Y commits)
          = Some (Totals (Z_sum (matching Y commits).*1)
                         (Z_sum (matching Y commits).*2))) as He
    by (by destruct (matching Y commits)).
  rewrite He in HY.
  assert (get_git_stats run script_dir
          = Returned (parse_log (render_log commits))) as Hget.
  { unfold get_git_stats. by rewrite Hrun, Hout. }
  rewrite (main_returned lib run script_dir _ Hget).
  intros Hdone. rewrite (exec_complete _ _ _ Hdone). cbn [app].
  apply list_elem_of_further, elem_of_app. left.
  unfold summary_calls. apply list_elem_of_further.
  apply list_elem_of_fmap. exists Y. split.
  - unfold getitem. by rewrite HY.
  - rewrite sorted_Permutation. apply elem_of_keys. by rewrite HY.
Qed.

Lemma main_prints_year_totals_witness :
  PrintLine "  2024: +13 -5"
    ∈ (main quiet_library
         (λ _, Returned
            {| returncode := 0;
               stdout := render_log
                 [("2024", [(3, 1, "sports_act.md"); (9, 9, "main.c")]);
                  ("2023", [(5, 0, "README.md")]);
                  ("2024", [(10, 4, "docs/Sports_Act.txt")])];
               stderr := EmptyString |}) "/srv/act").1.
Proof.
  refine (main_prints_year_totals quiet_library _ "/srv/act"
            {| returncode := 0;
               stdout := render_log
                 [("2024", [(3, 1, "sports_act.md"); (9, 9, "main.c")]);
                  ("2023", [(5, 0, "README.md")]);
                  ("2024", [(10, 4, "docs/Sports_Act.txt")])];
               stderr := EmptyString |}
            [("2024", [(3, 1, "sports_act.md"); (9, 9, "main.c")]);
             ("2023", [(5, 0, "README.md")]);
             ("2024", [(10, 4, "docs/Sports_Act.txt")])] "2024"
            eq_refl eq_refl eq_refl _ _); by vm_compute.
Defined.

(** X13.  The chart is saved only if the command could be started: when
    [subprocess.run] raises, the script ends with an exception and has
    made no call but its first print.  A script that ends without an
    exception has started the command and saved the chart. *)
Theorem chart_saved_only_if_command_started lib
    (run : list string → outcome CompletedProcess) script_dir :
  (Savefig (path_join script_dir "changes.png") 150 "white"
     ∈ (main lib run script_dir).1 →
   ∃ result, run (git_log_cmd script_dir) = Returned result) ∧
  (∀ e, run (git_log_cmd script_dir) = Raised e →
        (main lib run script_dir).2 ≠ None ∧
        ∀ x, x ∈ (main lib run script_dir).1 →
             x = PrintLine "Extracting git statistics...") ∧
  ((main lib run script_dir).2 = None →
   (∃ result, run (git_log_cmd script_dir) = Returned result) ∧
   Savefig (path_join script_dir "changes.png") 150 "white"
     ∈ (main lib run script_dir).1).
Proof.
  destruct (run (git_log_cmd script_dir)) as [result|e0] eqn:Hrun.
  - assert (get_git_stats run script_dir
            = Returned (parse_log (stdout result))) as Hget.
    { unfold get_git_stats. by rewrite Hrun. }
    split; [by eauto|]. split; [done|].
    intros Hdone. split; [by eauto|].
    rewrite (main_returned lib run script_dir _ Hget) in Hdone |- *.
    rewrite (exec_complete _ _ _ Hdone). cbn [app].
    apply list_elem_of_further, elem_of_app. right.
    unfold chart_calls. cbv zeta. rewrite !elem_of_app. do 2 right.
    do 14 apply list_elem_of_further. apply list_elem_of_here.
  - assert (get_git_stats run script_dir = Raised e0) as Hget.
    { unfold get_git_stats. by rewrite Hrun. }
    destruct (main_raised lib run script_dir e0 Hget) as [Hexn Hcalls].
    split; [|split].
    + by intros [=]%Hcalls.
    + by intros e _.
    + by intros ?.
Qed.

Lemma chart_saved_only_if_command_started_witness :
  Savefig "/srv/act/changes.png" 150 "white"
    ∈ (main quiet_library
         (λ _, Returned {| returncode := 1; stdout := EmptyString;
                           stderr := EmptyString |}) "/srv/act").1.
Proof.
  destruct (chart_saved_only_if_command_started quiet_library
              (λ _, Returned {| returncode := 1; stdout := EmptyString;
                                stderr := EmptyString |}) "/srv/act")
    as (_ & _ & H).
  by apply H.
Defined.

(** X14.  Lines read while the cursor is not the year [Y], with no year
    line of [Y] among them, leave the entry of [Y] as it is: a change
    line only ever adds to the year of the cursor. *)
Theorem other_years_untouched lines stats cur Y :
  cur ≠ Some Y → Forall (λ l, cursor_of Y l = false) lines →
  (scan_lines lines (stats, cur)).1 !! Y = stats !! Y.
Proof. apply scan_lines_other_year. Qed.

Lemma other_years_untouched_witness :
  (scan_lines [numstat_line "8" "8" "a.md"; "2025";
               numstat_line "1" "0" "sports_act.md"]
     (<["2023" := Totals 2 2]> ∅, Some "2024")).1 !! "2023"
  = Some (Totals 2 2).
Proof.
  rewrite (other_years_untouched _ (<["2023" := Totals 2 2]> ∅)
             (Some "2024") "2023"); [done|done|repeat constructor].
Defined.
